(** * Schema resolution of the t_metrics text-to-SQL agent

    A shallow embedding of [timeplus_schema_reader.py] (the class
    [TimeplusSchemaReader], the module global [_schema_reader] and the
    entry points [get_schema_reader] / [get_table_schema]) and of the schema
    tools of [t_metrics_agent_v2.py] ([get_static_schema] and the column
    loop of [get_table_schema_from_api]).  Further on: the whole of
    [get_table_schema_from_api], [build_complete_schema_info],
    [validate_sql_query], the configuration manager of the v2 agent
    (loading, saving, [create_model]) and [get_table_schema] of
    [t_metrics_agent.py].

    Python objects that are mutated ([self.client], the module global) are
    threaded as explicit state; every call into [proton_driver] goes through
    an abstract driver interface whose answers are arbitrary, and is
    recorded in a trace.  The cells of a row are Python values: the code
    copies them unchecked, so a cell that is not text reaches the loops
    that build the column dictionaries. *)

From stdpp Require Import gmap strings list fin_maps pretty.
From Stdlib Require Import ZArith.

Local Open Scope string_scope.
Local Open Scope Z_scope.
Local Open Scope list_scope.

(** ** Python values and control flow *)

(** An instance of a subclass of [Exception]: what [except Exception]
    catches.  [exn_class] is the class name, [exn_msg] is [str(e)]. *)
Record exn := Exn { exn_class : string; exn_msg : string }.

(** How a Python call ends: it returns a value or it raises. *)
Inductive outcome (A : Type) : Type :=
| Return (a : A)
| Raise (e : exn).
Arguments Return {A} a.
Arguments Raise {A} e.

(** Truth value of a [str]: false exactly for the empty string. *)
Definition truthy (s : string) : bool :=
  match s with
  | EmptyString => false
  | String _ _ => true
  end.

(** A cell of a driver result set, as a Python value: a [str], [None]
    (a NULL) or an [int].  [get_table_columns] is annotated
    [List[Tuple[str, str, str]]], but nothing checks a cell before it is
    used, so what the code does with a cell that is not text is modelled
    too. *)
Inductive cell :=
| Text (s : string)
| Null
| Int (n : Z).

(** Truth value of a cell: [None], the empty string and zero are false. *)
Definition cell_truthy (c : cell) : bool :=
  match c with
  | Text s => truthy s
  | Null => false
  | Int n => negb (n =? 0)
  end.

(** [str(c)]: what an f-string puts in the place of [{c}]. *)
Definition str (c : cell) : string :=
  match c with
  | Text s => s
  | Null => "None"
  | Int n => pretty n
  end.

(** [type(c).__name__] *)
Definition type_name (c : cell) : string :=
  match c with
  | Text _ => "str"
  | Null => "NoneType"
  | Int _ => "int"
  end.

(** [a == b] on cells, which is also equality of dictionary keys: values
    of different types are different. *)
Definition cell_eqb (a b : cell) : bool :=
  match a, b with
  | Text s, Text t => String.eqb s t
  | Null, Null => true
  | Int n, Int m => n =? m
  | _, _ => false
  end.

#[export] Instance cell_eq_dec : EqDecision cell.
Proof. solve_decision. Defined.

(** [description += text] for a [str] [text]: concatenation when
    [description] is a [str], a [TypeError] when it is [None] or an
    [int]. *)
Definition iadd (description : cell) (text : string) : outcome cell :=
  match description with
  | Text s => Return (Text (s +:+ text))
  | Null | Int _ =>
      Raise (Exn "TypeError"
                 ("unsupported operand type(s) for +=: '" +:+ type_name description
                  +:+ "' and 'str'"))
  end.

(** A row of a driver result set: a tuple of cells. *)
Definition row := list cell.

(** A row of text cells. *)
Definition cells (l : list string) : row := map Text l.

(** Identity of a [proton_driver] client object. *)
Definition handle := nat.

(** Keyword arguments of [client.Client(...)]. *)
Record client_args := ClientArgs {
  arg_host : string;
  arg_port : Z;
  arg_user : string;
  arg_password : string;
  arg_database : string
}.

(** ** The driver

    [proton_driver.client] as seen from this repository: constructing a
    client and running a query on it.  Both may raise, both may change the
    outside world [W]; nothing else is assumed about them. *)
Class ProtonDriver (W : Type) := {
  Client : client_args -> W -> outcome handle * W;
  execute : handle -> string -> W -> outcome (list row) * W
}.

(** Call sites of [logging.error]. *)
Inductive log_site := LogConnect | LogColumns | LogDescribe.

(** What a run does to the outside, in program order.  [EvDisconnect] is
    the driver's [Client.disconnect()]: it is part of the driver's
    interface, and no function of this repository calls it. *)
Inductive event :=
| EvClient (args : client_args) (r : outcome handle)
| EvExecute (c : handle) (query : string) (r : outcome (list row))
| EvDisconnect (c : handle)
| EvLogError (site : log_site) (e : exn).

(** ** Dictionaries with insertion order

    A Python [dict] whose iteration order is observable (the [columns]
    of a schema): assigning to an existing key keeps its position, a new
    key goes last.  Keys and values are cells: the live dictionary holds
    whatever the rows held. *)
Definition dict := list (cell * cell).

Fixpoint dict_set (d : dict) (k v : cell) : dict :=
  match d with
  | [] => [(k, v)]
  | (k', v') :: d' =>
      if cell_eqb k' k then (k', v) :: d' else (k', v') :: dict_set d' k v
  end.

Fixpoint dict_get (d : dict) (k : cell) : option cell :=
  match d with
  | [] => None
  | (k', v') :: d' => if cell_eqb k' k then Some v' else dict_get d' k
  end.

Definition dict_keys (d : dict) : list cell := map fst d.

(** A dictionary literal of [str] to [str]. *)
Definition texts (l : list (string * string)) : dict :=
  map (fun kv => (Text kv.1, Text kv.2)) l.

(** ** The reader object *)

Record TimeplusSchemaReader := {
  host : string;
  port : Z;
  user : string;
  password : string;
  database : string;
  client : option handle
}.

Definition set_client (r : TimeplusSchemaReader) (c : option handle)
  : TimeplusSchemaReader :=
  {| host := host r; port := port r; user := user r;
     password := password r; database := database r; client := c |}.

Record connection_info := {
  ci_host : string;
  ci_port : Z;
  ci_database : string
}.

(** The dictionary returned by [get_schema_dict]; the fallback dictionary
    has no ["connection_info"] key. *)
Record schema_dict := {
  table_name : string;
  description : string;
  columns : dict;
  constraints : list string;
  source : string;
  conn_info : option connection_info
}.

(** ** Literal tables of [TimeplusSchemaReader] *)

(** [_get_column_descriptions]: only looked up by key, so a finite map. *)
Definition _get_column_descriptions : gmap string string :=
  list_to_map [
    ("event_ts", "Event timestamp");
    ("metric", "Metric name identifier");
    ("value", "Metric value (use to_float64() for numeric operations)");
    ("metric_date", "Date component");
    ("metric_time", "Time component");
    ("metric_datetime", "Combined datetime");
    ("tagK1", "Tag key 1");
    ("tagV1", "Tag value 1");
    ("tagK2", "Tag key 2");
    ("tagV2", "Tag value 2");
    ("tagK3", "Tag key 3");
    ("tagV3", "Tag value 3");
    ("tagK4", "Tag key 4");
    ("tagV4", "Tag value 4");
    ("tagK5", "Tag key 5");
    ("tagV5", "Tag value 5");
    ("_tp_time", "System timestamp")
  ].

Definition schema_description : string :=
  "Time-series metrics data table - ONLY TABLE ALLOWED FOR QUERIES".

Definition schema_constraints : list string := [
  "SINGLE TABLE ONLY - No JOINs allowed";
  "No subqueries with other tables";
  "Must search CSV knowledge base first to find relevant metrics"
].

(** The ["columns"] literal of [_get_fallback_schema], in source order. *)
Definition fallback_columns : dict := texts [
  ("event_ts", "uint64 - Event timestamp");
  ("metric", "string - Metric name identifier");
  ("value", "string - Metric value (use to_float64() for numeric operations)");
  ("metric_date", "int64 - Date component");
  ("metric_time", "int64 - Time component");
  ("metric_datetime", "int64 - Combined datetime");
  ("tagK1", "low_cardinality(string) - Tag key 1");
  ("tagV1", "string - Tag value 1");
  ("tagK2", "low_cardinality(string) - Tag key 2");
  ("tagV2", "string - Tag value 2");
  ("tagK3", "low_cardinality(string) - Tag key 3");
  ("tagV3", "string - Tag value 3");
  ("tagK4", "low_cardinality(string) - Tag key 4");
  ("tagV4", "string - Tag value 4");
  ("tagK5", "low_cardinality(string) - Tag key 5");
  ("tagV5", "string - Tag value 5");
  ("_tp_time", "datetime64(3, 'UTC') - System timestamp")
].

(** [TimeplusSchemaReader._get_fallback_schema]: [table_name] is echoed,
    the rest is literal. *)
Definition _get_fallback_schema (tbl : string) : schema_dict :=
  {| table_name := tbl;
     description := schema_description;
     columns := fallback_columns;
     constraints := schema_constraints;
     source := "fallback";
     conn_info := None |}.

(** ** The loops of the reader, as list functions *)

(** One iteration of the loop of [get_table_columns]: a field is copied
    as it is, a missing field is read as the empty string. *)
Definition column_of_row (r : row) : cell * cell * cell :=
  let column_name := if (0 <? length r)%nat then nth 0 r (Text "") else Text "" in
  let column_type := if (1 <? length r)%nat then nth 1 r (Text "") else Text "" in
  let comment := if (2 <? length r)%nat then nth 2 r (Text "") else Text "" in
  (column_name, column_type, comment).

(** The loop of [_describe_table]: rows of fewer than two fields are
    skipped. *)
Fixpoint described_columns (result : list row) : list (cell * cell * cell) :=
  match result with
  | [] => []
  | r :: result' =>
      if (2 <=? length r)%nat then
        (nth 0 r (Text ""), nth 1 r (Text ""),
         if (2 <? length r)%nat then nth 2 r (Text "") else Text "")
          :: described_columns result'
      else described_columns result'
  end.

(** [table[col_name]] when [col_name in table], for a table with [str]
    keys: [None] and integers are hashable and are no key of it. *)
Definition business_text (table : gmap string string) (col_name : cell)
  : option string :=
  match col_name with
  | Text n => table !! n
  | Null | Int _ => None
  end.

(** The body of the loop of [get_schema_dict] that computes
    [description] for one [(col_name, col_type, comment)].  It is outside
    every [try]: the [TypeError] of [+=] leaves [get_schema_dict]. *)
Definition describe_column (col : cell * cell * cell) : outcome cell :=
  let '(col_name, col_type, comment) := col in
  let description := col_type in
  if cell_truthy comment then iadd description (" - " +:+ str comment)
  else
    match business_text _get_column_descriptions col_name with
    | Some business => iadd description (" - " +:+ business)
    | None => Return description
    end.

(** The loop of [get_schema_dict]: [columns[col_name] = description] for
    each triple in turn; the first iteration that raises ends it. *)
Fixpoint build_columns_from (columns : dict) (columns_info : list (cell * cell * cell))
  : outcome dict :=
  match columns_info with
  | [] => Return columns
  | col :: rest =>
      match describe_column col with
      | Return description =>
          build_columns_from (dict_set columns (col.1.1) description) rest
      | Raise e => Raise e
      end
  end.

(** The loop from [columns = {}]. *)
Definition build_columns (columns_info : list (cell * cell * cell)) : outcome dict :=
  build_columns_from [] columns_info.

(** ** Methods run in a state-and-exception monad

    The state is the receiver [self], the outside world and the trace.
    A raise keeps the state reached so far, as in Python. *)
Section Methods.

Context {W : Type} `{ProtonDriver W}.

(** Module constant [PROTON_AVAILABLE]: whether [import proton_driver]
    succeeded when the module was loaded. *)
Variable PROTON_AVAILABLE : bool.

Record mstate := {
  self : TimeplusSchemaReader;
  world : W;
  trace : list event
}.

Definition M (A : Type) : Type := mstate -> outcome A * mstate.

Definition ret {A} (a : A) : M A := fun s => (Return a, s).

Definition raise {A} (e : exn) : M A := fun s => (Raise e, s).

(** A computation that touches no state: it returns or raises. *)
Definition pure {A} (o : outcome A) : M A := fun s => (o, s).

Definition bind {A B} (m : M A) (k : A -> M B) : M B :=
  fun s =>
    match m s with
    | (Return a, s') => k a s'
    | (Raise e, s') => (Raise e, s')
    end.

(** [try: m  except Exception as e: h e] *)
Definition try_except {A} (m : M A) (h : exn -> M A) : M A :=
  fun s =>
    match m s with
    | (Return a, s') => (Return a, s')
    | (Raise e, s') => h e s'
    end.

Notation "x <- m ;; k" := (bind m (fun x => k))
  (at level 100, m at next level, k at level 200, right associativity).

Definition emit (e : event) : M unit :=
  fun s => (Return tt,
            {| self := self s; world := world s; trace := trace s ++ [e] |}).

Definition get_self : M TimeplusSchemaReader := fun s => (Return (self s), s).

Definition assign_client (c : option handle) : M unit :=
  fun s => (Return tt,
            {| self := set_client (self s) c; world := world s;
               trace := trace s |}).

(** [client.Client(host=..., ...)] *)
Definition new_Client (a : client_args) : M handle :=
  fun s =>
    let '(r, w) := Client a (world s) in
    (r, {| self := self s; world := w; trace := trace s ++ [EvClient a r] |}).

(** [self.client.execute(query)]: an [AttributeError] when [self.client]
    is [None]. *)
Definition client_execute (query : string) : M (list row) :=
  fun s =>
    match client (self s) with
    | None =>
        (Raise (Exn "AttributeError"
                    "'NoneType' object has no attribute 'execute'"), s)
    | Some c =>
        let '(r, w) := execute c query (world s) in
        (r, {| self := self s; world := w;
               trace := trace s ++ [EvExecute c query r] |})
    end.

Definition logging_error (site : log_site) (e : exn) : M unit :=
  emit (EvLogError site e).

Definition LF : string := String (Ascii.ascii_of_nat 10) "".

(** The f-string of [get_table_columns], with its line breaks and
    indentation. *)
Definition columns_query (db tbl : string) : string :=
  LF +:+ "            SELECT name, type, comment" +:+
  LF +:+ "            FROM system.columns " +:+
  LF +:+ "            WHERE database = '" +:+ db +:+ "' AND table = '" +:+ tbl +:+ "'" +:+
  LF +:+ "            ORDER BY position" +:+
  LF +:+ "            ".

Definition describe_query (db tbl : string) : string :=
  "DESCRIBE " +:+ db +:+ "." +:+ tbl.

#[local] Arguments columns_query : simpl never.
#[local] Arguments describe_query : simpl never.

(** [TimeplusSchemaReader.connect] *)
Definition connect : M bool :=
  if negb PROTON_AVAILABLE then ret false
  else
    try_except
      (r <- get_self ;;
       c <- new_Client (ClientArgs (host r) (port r) (user r)
                                   (password r) (database r)) ;;
       _ <- assign_client (Some c) ;;
       _ <- client_execute "SELECT 1" ;;
       ret true)
      (fun e => _ <- logging_error LogConnect e ;; ret false).

(** [TimeplusSchemaReader._describe_table] *)
Definition _describe_table (tbl : string) : M (list (cell * cell * cell)) :=
  try_except
    (r <- get_self ;;
     result <- client_execute (describe_query (database r) tbl) ;;
     ret (described_columns result))
    (fun e => _ <- logging_error LogDescribe e ;; ret []).

(** [TimeplusSchemaReader.get_table_columns] *)
Definition get_table_columns (tbl : string) : M (list (cell * cell * cell)) :=
  r <- get_self ;;
  match client r with
  | None => ret []
  | Some _ =>
      try_except
        (result <- client_execute (columns_query (database r) tbl) ;;
         let columns := map column_of_row result in
         match columns with
         | [] => _describe_table tbl
         | _ :: _ => ret columns
         end)
        (fun e => _ <- logging_error LogColumns e ;; _describe_table tbl)
  end.

(** [TimeplusSchemaReader.get_schema_dict]: the loop that builds
    [columns] runs under no handler. *)
Definition get_schema_dict (tbl : string) : M schema_dict :=
  connected <- connect ;;
  if negb connected then ret (_get_fallback_schema tbl)
  else
    columns_info <- get_table_columns tbl ;;
    match columns_info with
    | [] => ret (_get_fallback_schema tbl)
    | _ :: _ =>
        columns <- pure (build_columns columns_info) ;;
        r <- get_self ;;
        ret {| table_name := tbl;
               description := schema_description;
               columns := columns;
               constraints := schema_constraints;
               source := "timeplus_api";
               conn_info := Some {| ci_host := host r; ci_port := port r;
                                    ci_database := database r |} |}
    end.

End Methods.

(** The connection parameters of two readers agree. *)
Definition same_parameters (r r' : TimeplusSchemaReader) : Prop :=
  host r = host r' /\ port r = port r' /\ user r = user r' /\
  password r = password r' /\ database r = database r'.

(** ** The module level: the global reader and the entry points

    Reader objects live in a heap; [_schema_reader] holds [None] or the
    address of the one shared reader, so that a mutation made through one
    reference is seen through every other. *)
Section Module_level.

Context {W : Type} `{ProtonDriver W}.
Variable PROTON_AVAILABLE : bool.

(** The builtin [int] applied to a [str]: the integer, or a [ValueError]. *)
Variable py_int : string -> outcome Z.

Record process := {
  heap : list TimeplusSchemaReader;
  _schema_reader : option nat;
  outside : W;
  history : list event
}.

(** [os.getenv(key, default)] *)
Definition getenv (environ : gmap string string) (key dflt : string) : string :=
  default dflt (environ !! key).

(** [TimeplusSchemaReader.__init__]: [a or b] takes [b] when [a] is [None],
    empty or zero, and only then evaluates it. *)
Definition __init__ (environ : gmap string string)
    (host' : option string) (port' : option Z) (user' password' database' : option string)
  : outcome TimeplusSchemaReader :=
  let or_env (a : option string) (key dflt : string) : string :=
    match a with
    | Some s => if truthy s then s else getenv environ key dflt
    | None => getenv environ key dflt
    end in
  let h := or_env host' "TIMEPLUS_HOST" "localhost" in
  let from_env := py_int (getenv environ "TIMEPLUS_PORT" "8463") in
  let p :=
    match port' with
    | Some n => if n =? 0 then from_env else Return n
    | None => from_env
    end in
  match p with
  | Raise e => Raise e
  | Return p =>
      Return {| host := h; port := p;
                user := or_env user' "TIMEPLUS_USER" "default";
                password := or_env password' "TIMEPLUS_PASSWORD" "";
                database := or_env database' "TIMEPLUS_DATABASE" "default";
                client := None |}
  end.

(** [get_schema_reader]: returns the address of the global reader,
    constructing it on first use from the environment of that moment. *)
Definition get_schema_reader (environ : gmap string string) (p : process)
  : outcome nat * process :=
  match _schema_reader p with
  | None =>
      match __init__ environ None None None None None with
      | Raise e => (Raise e, p)
      | Return r =>
          let a := length (heap p) in
          (Return a, {| heap := heap p ++ [r]; _schema_reader := Some a;
                        outside := outside p; history := history p |})
      end
  | Some a => (Return a, p)
  end.

(** A method call [obj.m(...)] on the object at address [a]: the method
    runs on the stored object and its mutations are stored back. *)
Definition call_method {A} (a : nat) (m : M A) (p : process)
  : outcome A * process :=
  match heap p !! a with
  | None => (Raise (Exn "ReferenceError" "no object at this address"), p)
  | Some r =>
      let '(out, s) := m {| self := r; world := outside p; trace := history p |} in
      (out, {| heap := <[a := self s]> (heap p); _schema_reader := _schema_reader p;
               outside := world s; history := trace s |})
  end.

(** [get_table_schema] *)
Definition get_table_schema (environ : gmap string string) (tbl : string)
    (p : process) : outcome schema_dict * process :=
  match get_schema_reader environ p with
  | (Raise e, p') => (Raise e, p')
  | (Return reader, p') => call_method reader (get_schema_dict PROTON_AVAILABLE tbl) p'
  end.

(** The calls of later callers, each with the environment of its moment. *)
Fixpoint later_calls (calls : list (gmap string string * string)) (p : process)
  : process :=
  match calls with
  | [] => p
  | (environ, tbl) :: rest => later_calls rest (get_table_schema environ tbl p).2
  end.

(** The global holds address [a], the heap has [n] readers, and the
    reader at [a] has the connection parameters of [r]. *)
Definition shares (a : nat) (n : nat) (r : TimeplusSchemaReader) (p : process) : Prop :=
  _schema_reader p = Some a /\
  length (heap p) = n /\
  exists r', heap p !! a = Some r' /\ same_parameters r' r.

End Module_level.

Arguments process : clear implicits.

(** ** The schema tools of [t_metrics_agent_v2.py] *)
Module V2.

(** [_get_column_business_descriptions] *)
Definition _get_column_business_descriptions : gmap string string :=
  list_to_map [
    ("event_ts", "Original event timestamp from source system");
    ("metric", "Metric identifier for filtering and grouping");
    ("value", "Metric value, stored as string, convert with to_float64() for math");
    ("metric_date", "Pre-computed date component for date-based queries");
    ("metric_time", "Pre-computed time component for time-based queries");
    ("metric_datetime", "Combined datetime for temporal analysis");
    ("tagK1", "First tag key for dimensional analysis");
    ("tagV1", "First tag value corresponding to tagK1");
    ("tagK2", "Second tag key for additional dimensions");
    ("tagV2", "Second tag value corresponding to tagK2");
    ("tagK3", "Third tag key for further categorization");
    ("tagV3", "Third tag value corresponding to tagK3");
    ("tagK4", "Fourth tag key for detailed segmentation");
    ("tagV4", "Fourth tag value corresponding to tagK4");
    ("tagK5", "Fifth tag key for finest granularity");
    ("tagV5", "Fifth tag value corresponding to tagK5");
    ("_tp_time", "System ingestion timestamp, use for time windows and filters")
  ].

(** The [columns] literal of [get_static_schema], in source order. *)
Definition static_columns_literal : dict := texts [
  ("event_ts", "uint64 - Event timestamp");
  ("metric", "string - Metric name identifier");
  ("value", "string - Metric value (use to_float64() for numeric operations)");
  ("metric_date", "int64 - Date component");
  ("metric_time", "int64 - Time component");
  ("metric_datetime", "int64 - Combined datetime");
  ("tagK1", "low_cardinality(string) - Tag key 1");
  ("tagV1", "string - Tag value 1");
  ("tagK2", "low_cardinality(string) - Tag key 2");
  ("tagV2", "string - Tag value 2");
  ("tagK3", "low_cardinality(string) - Tag key 3");
  ("tagV3", "string - Tag value 3");
  ("tagK4", "low_cardinality(string) - Tag key 4");
  ("tagV4", "string - Tag value 4");
  ("tagK5", "low_cardinality(string) - Tag key 5");
  ("tagV5", "string - Tag value 5");
  ("_tp_time", "datetime64(3, 'UTC') - System timestamp")
].

(** One iteration of the row loop of [get_table_schema_from_api]; the
    loop runs inside the [try] of the tool. *)
Definition api_column (columns : dict) (r : row) : outcome dict :=
  let col_name := if (0 <? length r)%nat then nth 0 r (Text "") else Text "" in
  let col_type := if (1 <? length r)%nat then nth 1 r (Text "") else Text "" in
  let comment :=
    if (2 <? length r)%nat && cell_truthy (nth 2 r (Text "")) then nth 2 r (Text "")
    else Text "" in
  if cell_truthy col_name then
    let description := col_type in
    match (if cell_truthy comment then iadd description (" - " +:+ str comment)
           else Return description) with
    | Raise e => Raise e
    | Return description =>
        match (match business_text _get_column_business_descriptions col_name with
               | Some business_desc =>
                   if negb (cell_truthy comment)
                   then iadd description (" - " +:+ business_desc)
                   else Return description
               | None => Return description
               end) with
        | Raise e => Raise e
        | Return description => Return (dict_set columns col_name description)
        end
    end
  else Return columns.

(** The row loop of [get_table_schema_from_api]; the first iteration that
    raises ends it. *)
Fixpoint api_columns_from (columns : dict) (result : list row) : outcome dict :=
  match result with
  | [] => Return columns
  | r :: rest =>
      match api_column columns r with
      | Return columns' => api_columns_from columns' rest
      | Raise e => Raise e
      end
  end.

(** The loop from [columns = {}]. *)
Definition api_columns (result : list row) : outcome dict := api_columns_from [] result.

(** The dictionaries returned by [get_static_schema]; a key that one of
    the two shapes lacks is [None] there. *)
Record static_schema := {
  success : bool;
  static_source : string;
  static_table_name : option string;
  static_columns : option dict;
  column_count : option nat;
  note : option string;
  error : option string;
  supported_tables : option (list string);
  recommendation : string
}.

(** [get_static_schema] *)
Definition get_static_schema (tbl : string) : static_schema :=
  if String.eqb tbl "t_metrics" then
    let columns := static_columns_literal in
    {| success := true;
       static_source := "static_definition";
       static_table_name := Some tbl;
       static_columns := Some columns;
       column_count := Some (length columns);
       note := Some "Static schema - may not reflect current database structure";
       error := None;
       supported_tables := None;
       recommendation := "Prefer API schema when available" |}
  else
    {| success := false;
       static_source := "unsupported_table";
       static_table_name := None;
       static_columns := None;
       column_count := None;
       note := None;
       error := Some ("No static schema available for " +:+ tbl);
       supported_tables := Some ["t_metrics"];
       recommendation := "Use get_table_schema_from_api() for other tables" |}.

End V2.

(** ** A scripted driver

    A concrete [ProtonDriver] for running the model: every construction
    succeeds with a fresh handle, and a query is answered from a table
    keyed by its text; a query without an entry raises. *)
Record scripted := {
  answers : list (string * outcome (list row));
  next_handle : handle
}.

Fixpoint answer_of (q : string) (l : list (string * outcome (list row)))
  : outcome (list row) :=
  match l with
  | [] => Raise (Exn "NetworkError" "Connection refused")
  | (q', r) :: l' => if String.eqb q' q then r else answer_of q l'
  end.

#[export] Instance scripted_driver : ProtonDriver scripted := {
  Client _ w :=
    (Return (next_handle w),
     {| answers := answers w; next_handle := S (next_handle w) |});
  execute _ q w := (answer_of q (answers w), w)
}.

(** A reader as [TimeplusSchemaReader()] builds it with no environment
    variable set. *)
Definition default_reader : TimeplusSchemaReader :=
  {| host := "localhost"; port := 8463; user := "default"; password := "";
     database := "default"; client := None |}.

Definition start (w : scripted) : mstate :=
  {| self := default_reader; world := w; trace := [] |}.

(** A server that answers the probe and lists [rows] in [system.columns]
    for table [tbl] of the default database. *)
Definition healthy (tbl : string) (rows : list row) : scripted :=
  {| answers := [("SELECT 1", Return [[Int 1]]);
                 (columns_query "default" tbl, Return rows)];
     next_handle := 0%nat |}.

(** A server nobody can reach: every query raises. *)
Definition unreachable : scripted := {| answers := []; next_handle := 0%nat |}.

(** ** Reading traces and results *)

(** Is [e] a run of the query [q]? *)
Definition runs_query (q : string) (e : event) : bool :=
  match e with
  | EvExecute _ q' _ => String.eqb q' q
  | _ => false
  end.

(** How many times [q] was sent to the server in [evs]. *)
Definition times_run (q : string) (evs : list event) : nat :=
  length (List.filter (runs_query q) evs).

(** The client constructions of a trace, with their outcomes. *)
Definition constructions (evs : list event) : list (outcome handle) :=
  omap (fun e => match e with EvClient _ r => Some r | _ => None end) evs.

(** The disconnections of a trace. *)
Definition disconnections (evs : list event) : list handle :=
  omap (fun e => match e with EvDisconnect c => Some c | _ => None end) evs.

(** What the driver answered, without the identity of the client. *)
Inductive response :=
| Constructed (ok : bool)
| Answered (r : outcome (list row)).

Definition response_of (e : event) : option response :=
  match e with
  | EvClient _ (Return _) => Some (Constructed true)
  | EvClient _ (Raise _) => Some (Constructed false)
  | EvExecute _ _ r => Some (Answered r)
  | EvDisconnect _ | EvLogError _ _ => None
  end.

Definition responses (evs : list event) : list response := omap response_of evs.

(** Lower case of an ASCII letter. *)
Definition lower_ascii (c : Ascii.ascii) : Ascii.ascii :=
  let n := Ascii.nat_of_ascii c in
  if ((65 <=? n) && (n <=? 90))%nat then Ascii.ascii_of_nat (n + 32) else c.

Fixpoint lower (s : string) : string :=
  match s with
  | EmptyString => EmptyString
  | String c s' => String (lower_ascii c) (lower s')
  end.

(** Does [needle] occur in [hay]? *)
Fixpoint occurs_in (needle hay : string) : bool :=
  String.prefix needle hay ||
  match hay with
  | EmptyString => false
  | String _ hay' => occurs_in needle hay'
  end.

(** Does any text of the dictionary other than the echoed table name say
    that the table is unsupported, in any letter case? *)
Definition says_unsupported (d : schema_dict) : bool :=
  existsb (fun t => occurs_in "unsupported" (lower t))
          (description d :: source d :: constraints d
             ++ map (fun kv => str kv.1) (columns d)
             ++ map (fun kv => str kv.2) (columns d)).

(** The last triple of [columns_info] whose name is [n]. *)
Definition last_named (n : cell) (columns_info : list (cell * cell * cell))
  : option (cell * cell * cell) :=
  find (fun col => cell_eqb col.1.1 n) (rev columns_info).

(** A row the metadata query should not produce: fewer than three fields. *)
Definition malformed (r : row) : Prop := (length r < 3)%nat.

(** The dictionary [get_schema_dict] returns on the live path, from the
    receiver [r] and the [columns] its loop has built. *)
Definition live_schema (r : TimeplusSchemaReader) (tbl : string) (columns : dict)
  : schema_dict :=
  {| table_name := tbl;
     description := schema_description;
     columns := columns;
     constraints := schema_constraints;
     source := "timeplus_api";
     conn_info := Some {| ci_host := host r; ci_port := port r;
                          ci_database := database r |} |}.

(** The triples [_describe_table] returns for an answer to DESCRIBE. *)
Definition described (answer : outcome (list row)) : list (cell * cell * cell) :=
  match answer with
  | Return result => described_columns result
  | Raise _ => []
  end.

(** How [get_schema_dict] ends once [get_table_columns] has returned
    [columns_info]. *)
Definition from_columns (r : TimeplusSchemaReader) (tbl : string)
    (columns_info : list (cell * cell * cell)) : outcome schema_dict :=
  match columns_info with
  | [] => Return (_get_fallback_schema tbl)
  | _ :: _ =>
      match build_columns columns_info with
      | Return columns => Return (live_schema r tbl columns)
      | Raise e => Raise e
      end
  end.

(** The outcome of [get_schema_dict] read off the answers of the driver,
    in the order they were given: construction, probe, metadata view and,
    when that gave nothing, DESCRIBE. *)
Definition resolved (r : TimeplusSchemaReader) (tbl : string) (rs : list response)
  : outcome schema_dict :=
  let second rest :=
    match rest with
    | Answered a :: _ => described a
    | _ => []
    end in
  match rs with
  | Constructed true :: Answered (Return _) :: Answered (Return rows) :: rest =>
      match map column_of_row rows with
      | [] => from_columns r tbl (second rest)
      | cols => from_columns r tbl cols
      end
  | Constructed true :: Answered (Return _) :: Answered (Raise _) :: rest =>
      from_columns r tbl (second rest)
  | _ => Return (_get_fallback_schema tbl)
  end.

(** Is the type field of the row, when it has one, text? *)
Definition text_typed (r : row) : bool :=
  match nth 1 r (Text "") with
  | Text _ => true
  | Null | Int _ => false
  end.

(** Is the type of the triple text? *)
Definition text_type (col : cell * cell * cell) : bool :=
  match col.1.2 with
  | Text _ => true
  | Null | Int _ => false
  end.

(** Did every row the driver answered with have a text type? *)
Definition text_answer (r : response) : bool :=
  match r with
  | Answered (Return rows) => forallb text_typed rows
  | _ => true
  end.

Definition text_types (evs : list event) : bool := forallb text_answer (responses evs).

(** The keyword arguments [connect] passes to [client.Client]. *)
Definition args_of (r : TimeplusSchemaReader) : client_args :=
  ClientArgs (host r) (port r) (user r) (password r) (database r).

(** A reading of the builtin [int] on plain decimal numerals, enough to
    run the module level on the usual port texts. *)
Fixpoint decimal (acc : Z) (s : string) : option Z :=
  match s with
  | EmptyString => Some acc
  | String c s' =>
      let n := Z.of_nat (Ascii.nat_of_ascii c) in
      if (48 <=? n) && (n <=? 57) then decimal (10 * acc + (n - 48)) s' else None
  end.

Definition int_of_numeral (s : string) : outcome Z :=
  match s, decimal 0 s with
  | String _ _, Some z => Return z
  | _, _ => Raise (Exn "ValueError" "invalid literal for int() with base 10")
  end.

(** The process right after the module is imported. *)
Definition imported (w : scripted) : process scripted :=
  {| heap := []; _schema_reader := None; outside := w; history := [] |}.

(** A server whose metadata view is empty for [tbl] and that answers
    DESCRIBE with [rows]. *)
Definition describable (tbl : string) (rows : list row) : scripted :=
  {| answers := [("SELECT 1", Return [[Int 1]]);
                 (columns_query "default" tbl, Return []);
                 (describe_query "default" tbl, Return rows)];
     next_handle := 0%nat |}.

(** ** The schema tool of [t_metrics_agent.py] *)
Module V1.

(** The dictionary returned by [get_table_schema]; it has no
    ["source"] key. *)
Record table_schema := {
  table_name : string;
  description : string;
  columns : dict;
  constraints : list string
}.

(** [get_table_schema] of the first agent: one literal. *)
Definition get_table_schema : table_schema :=
  {| table_name := "t_metrics";
     description := "Time-series metrics data table - ONLY TABLE ALLOWED FOR QUERIES";
     columns := texts [
       ("event_ts", "uint64 - Event timestamp");
       ("metric", "string - Metric name identifier");
       ("value", "string - Metric value (use to_float64() for numeric operations)");
       ("metric_date", "int64 - Date component");
       ("metric_time", "int64 - Time component");
       ("metric_datetime", "int64 - Combined datetime");
       ("tagK1", "low_cardinality(string) - Tag key 1");
       ("tagV1", "string - Tag value 1");
       ("tagK2", "low_cardinality(string) - Tag key 2");
       ("tagV2", "string - Tag value 2");
       ("tagK3", "low_cardinality(string) - Tag key 3");
       ("tagV3", "string - Tag value 3");
       ("tagK4", "low_cardinality(string) - Tag key 4");
       ("tagV4", "string - Tag value 4");
       ("tagK5", "low_cardinality(string) - Tag key 5");
       ("tagV5", "string - Tag value 5");
       ("_tp_time", "datetime64(3, 'UTC') - System timestamp")
     ];
     constraints := [
       "SINGLE TABLE ONLY - No JOINs allowed";
       "No subqueries with other tables";
       "Must search CSV knowledge base first to find relevant metrics"
     ] |}.

End V1.

(** ** The tools of [t_metrics_agent_v2.py]

    Module-level functions: they have no receiver, so their state is the
    outside alone.  A function that talks to the database keeps the trace
    of its driver calls next to the world. *)
Module ReAct.

(** The dataclass [TimeplusConfig], with its declared field types. *)
Record TimeplusConfig := {
  host : string;
  port : Z;
  user : string;
  password : string;
  database : string;
  table : string
}.

(** The dictionaries returned by [get_table_schema_from_api]; a key that
    one of the four shapes lacks is [None] there. *)
Record api_schema := {
  api_success : bool;
  api_source : string;
  api_table_name : string;
  api_error : option string;
  api_solution : option string;
  api_database : option string;
  api_connection : option string;
  api_connection_attempted : option string;
  api_column_dict : option dict;
  api_column_count : option nat;
  api_recommendation : string
}.

(** The dictionary returned by [build_complete_schema_info]. *)
Record schema_info := {
  info_table_name : string;
  info_description : string;
  info_constraints : list string;
  info_query_patterns : list string;
  info_common_functions : list string
}.

(** [build_complete_schema_info] *)
Definition build_complete_schema_info (tbl : string) : schema_info :=
  {| info_table_name := tbl;
     info_description := "Time-series metrics data table - ONLY TABLE ALLOWED FOR QUERIES";
     info_constraints := [
       "SINGLE TABLE ONLY - No JOINs allowed";
       "No subqueries with other tables";
       "Must search CSV knowledge base first to find relevant metrics"
     ];
     info_query_patterns := [
       "Use to_float64(value) for numeric operations";
       "Use _tp_time for time-based filtering and windows";
       "Filter by metric field for specific metric types";
       "Use tagK/tagV pairs for dimension filtering";
       "Use table(t_metrics) for historical data analysis";
       "Use streaming queries for real-time monitoring"
     ];
     info_common_functions := [
       "tumble(t_metrics, _tp_time, interval) - Non-overlapping windows";
       "hop(t_metrics, _tp_time, hop_size, window_size) - Sliding windows";
       "to_float64(value) - Convert string values to numbers";
       "now() - Current timestamp for time filters"
     ] |}.

(** [a or b] on strings and on integers. *)
Definition str_or (a : option string) (b : string) : string :=
  match a with
  | Some s => if truthy s then s else b
  | None => b
  end.

Definition int_or (a : option Z) (b : Z) : Z :=
  match a with
  | Some n => if n =? 0 then b else n
  | None => b
  end.

(** The f-string [f"{host}:{port}"]. *)
Definition host_port (h : string) (p : Z) : string := h +:+ ":" +:+ pretty p.

(** The f-string of [get_table_schema_from_api], with its line breaks and
    indentation. *)
Definition api_query (db tbl : string) : string :=
  LF +:+ "        SELECT name, type, comment" +:+
  LF +:+ "        FROM system.columns " +:+
  LF +:+ "        WHERE database = '" +:+ db +:+ "' AND table = '" +:+ tbl +:+ "'" +:+
  LF +:+ "        ORDER BY position" +:+
  LF +:+ "        ".

(** State and exceptions for a function without receiver. *)
Section Effects.

Context {S : Type}.

Definition Tool (A : Type) : Type := S -> outcome A * S.

Definition ret {A} (a : A) : Tool A := fun s => (Return a, s).

Definition bind {A B} (m : Tool A) (k : A -> Tool B) : Tool B :=
  fun s =>
    match m s with
    | (Return a, s') => k a s'
    | (Raise e, s') => (Raise e, s')
    end.

Definition raise {A} (e : exn) : Tool A := fun s => (Raise e, s).

(** A computation that touches no state: it returns or raises. *)
Definition pure {A} (o : outcome A) : Tool A := fun s => (o, s).

(** [try: m  except Exception as e: h e] *)
Definition try_except {A} (m : Tool A) (h : exn -> Tool A) : Tool A :=
  fun s =>
    match m s with
    | (Return a, s') => (Return a, s')
    | (Raise e, s') => h e s'
    end.

End Effects.

#[local] Notation "x <- m ;; k" := (bind m (fun x => k))
  (at level 100, m at next level, k at level 200, right associativity).

Section Schema_tool.

Context {W : Type} `{ProtonDriver W}.

(** Module constant [PROTON_AVAILABLE] of the v2 agent. *)
Variable PROTON_AVAILABLE : bool.

(** The values [proton_driver] gives to the keyword arguments that
    [client.Client(host=host, port=port)] leaves out. *)
Variables default_user default_password default_database : string.

Record session := {
  net : W;
  seen : list event
}.

(** [client.Client(host=host, port=port)] *)
Definition new_client (a : client_args) : Tool handle :=
  fun s =>
    let '(r, w) := Client a (net s) in
    (r, {| net := w; seen := seen s ++ [EvClient a r] |}).

(** [c.execute(query)] *)
Definition execute_on (c : handle) (query : string) : Tool (list row) :=
  fun s =>
    let '(r, w) := execute c query (net s) in
    (r, {| net := w; seen := seen s ++ [EvExecute c query r] |}).

(** [get_table_schema_from_api]; [config] is
    [config_manager.timeplus_config]. *)
Definition get_table_schema_from_api (config : TimeplusConfig) (tbl : string)
  : Tool api_schema :=
  if negb PROTON_AVAILABLE then
    ret {| api_success := false;
           api_source := "driver_unavailable";
           api_table_name := tbl;
           api_error := Some "proton-driver not installed";
           api_solution :=
             Some "pip install proton-driver --extra-index-url https://d.timeplus.com/simple/";
           api_database := None;
           api_connection := None;
           api_connection_attempted := None;
           api_column_dict := None;
           api_column_count := None;
           api_recommendation := "Use get_static_schema() as fallback" |}
  else
    let host := host config in
    let port := port config in
    let database := database config in
    try_except
      (c <- new_client (ClientArgs host port default_user default_password
                                   default_database) ;;
       result <- execute_on c (api_query database tbl) ;;
       columns <- pure (V2.api_columns result) ;;
       match columns with
       | _ :: _ =>
           ret {| api_success := true;
                  api_source := "timeplus_api";
                  api_table_name := tbl;
                  api_error := None;
                  api_solution := None;
                  api_database := Some database;
                  api_connection := Some (host_port host port);
                  api_connection_attempted := None;
                  api_column_dict := Some columns;
                  api_column_count := Some (length columns);
                  api_recommendation := "Use this real-time schema for SQL generation" |}
       | [] =>
           ret {| api_success := false;
                  api_source := "no_data";
                  api_table_name := tbl;
                  api_error := Some ("No columns found for table " +:+ tbl);
                  api_solution := None;
                  api_database := Some database;
                  api_connection := None;
                  api_connection_attempted := None;
                  api_column_dict := None;
                  api_column_count := None;
                  api_recommendation := "Check table name or use get_static_schema()" |}
       end)
      (fun e =>
         ret {| api_success := false;
                api_source := "connection_error";
                api_table_name := tbl;
                api_error := Some (exn_msg e);
                api_solution := None;
                api_database := None;
                api_connection := None;
                api_connection_attempted := Some (host_port host port);
                api_column_dict := None;
                api_column_count := None;
                api_recommendation :=
                  "Check Timeplus server status or use get_static_schema()" |}).

End Schema_tool.

(** The [analyzer] module as seen from this repository: constructing its
    client and analysing one statement.  Both may raise; the analysis is
    an opaque value. *)
Class AnalyzerService (N A : Type) := {
  AnalyzerClient : string -> string -> string -> Z -> N -> outcome handle * N;
  analyze_sql : handle -> string -> N -> outcome A * N
}.

(** The dictionaries returned by [validate_sql_query]. *)
Record validation (A : Type) := {
  val_success : bool;
  val_sql : string;
  val_analysis : option A;
  val_error : option string;
  val_analyzer_host : string;
  val_recommendation : string
}.
Arguments val_success {A} _.
Arguments val_sql {A} _.
Arguments val_analysis {A} _.
Arguments val_error {A} _.
Arguments val_analyzer_host {A} _.
Arguments val_recommendation {A} _.

Section Validation_tool.

Context {N A : Type} `{AnalyzerService N A}.

(** [validate_sql_query].  Nothing before the construction of the client
    can raise, so [analyzer_host] is bound whenever the handler runs and
    the handler formats it. *)
Definition validate_sql_query (config : TimeplusConfig) (sql : string)
    (host' : option string) (port' : option Z) (username' password' : option string)
  : Tool (validation A) :=
  let timeplus_config := config in
  let analyzer_host := str_or host' (host timeplus_config) in
  let analyzer_port := int_or port' 3218 in
  let analyzer_username := str_or username' (user timeplus_config) in
  let analyzer_password := str_or password' (password timeplus_config) in
  try_except
    (analyzer_client <-
       (fun n => AnalyzerClient analyzer_username analyzer_password
                                analyzer_host analyzer_port n) ;;
     analysis_result <- (fun n => analyze_sql analyzer_client sql n) ;;
     ret {| val_success := true;
            val_sql := sql;
            val_analysis := Some analysis_result;
            val_error := None;
            val_analyzer_host := host_port analyzer_host analyzer_port;
            val_recommendation := "SQL validation completed successfully" |})
    (fun e =>
       ret {| val_success := false;
              val_sql := sql;
              val_analysis := None;
              val_error := Some (exn_msg e);
              val_analyzer_host := host_port analyzer_host analyzer_port;
              val_recommendation :=
                "Check SQL syntax and analyzer service availability" |}).

End Validation_tool.

End ReAct.

(** ** The configuration of [t_metrics_agent_v2.py]

    The dataclasses do not check their fields: a configuration read from a
    file holds whatever JSON values the file has.  Here the fields are
    JSON values; [ReAct.TimeplusConfig] above is the same dataclass with
    its declared types, as the tools use it. *)
Module Config.

Section Values.

(** Python's [float]; its values are not looked into. *)
Variable float : Type.

(** What [json.load] returns and [json.dump] accepts. *)
#[warnings="-register-all"]
Inductive json :=
| JNull
| JBool (b : bool)
| JInt (n : Z)
| JFloat (x : float)
| JStr (s : string)
| JList (l : list json)
| JDict (d : list (string * json)).

Definition type_name (v : json) : string :=
  match v with
  | JNull => "NoneType"
  | JBool _ => "bool"
  | JInt _ => "int"
  | JFloat _ => "float"
  | JStr _ => "str"
  | JList _ => "list"
  | JDict _ => "dict"
  end.

Definition no_attribute (v : json) (attribute : string) : exn :=
  Exn "AttributeError"
      ("'" +:+ type_name v +:+ "' object has no attribute '" +:+ attribute +:+ "'").

Fixpoint item (d : list (string * json)) (key : string) : option json :=
  match d with
  | [] => None
  | (k, v) :: d' => if String.eqb k key then Some v else item d' key
  end.

(** [v.get(key, dflt)]: only a dictionary has [get]. *)
Definition get (v : json) (key : string) (dflt : json) : outcome json :=
  match v with
  | JDict d => Return (default dflt (item d key))
  | _ => Raise (no_attribute v "get")
  end.

(** The dataclass [ModelConfig]. *)
Record ModelConfig := {
  provider : json;
  model_id : json;
  api_key : json;
  api_url : json;
  temperature : json;
  max_tokens : json
}.

(** The dataclass [TimeplusConfig]. *)
Record TimeplusConfig := {
  host : json;
  port : json;
  user : json;
  password : json;
  database : json;
  table : json
}.

Record AgentConfigManager := {
  config_file : string;
  model_config : ModelConfig;
  timeplus_config : TimeplusConfig
}.

(** A path of the file system: a file that [json.load] reads as [v], or
    something that [open] or [json.load] rejects with [e]. *)
Inductive file :=
| Document (v : json)
| Unloadable (e : exn).

(** The operating system as the configuration manager sees it: the files,
    the paths that cannot be written, and what was printed. *)
Record os := {
  files : gmap string file;
  read_only : gset string;
  stdout : list string
}.

(** A function of the manager: state [os], and exceptions. *)
Definition Run (A : Type) : Type := @ReAct.Tool os A.

(** [os.path.exists(path)] *)
Definition path_exists (path : string) : Run bool :=
  fun st => (Return (bool_decide (is_Some (files st !! path))), st).

(** [with open(path, 'r', encoding='utf-8') as f: json.load(f)] *)
Definition load (path : string) : Run json :=
  fun st =>
    match files st !! path with
    | Some (Document v) => (Return v, st)
    | Some (Unloadable e) => (Raise e, st)
    | None => (Raise (Exn "FileNotFoundError" ("No such file or directory: " +:+ path)), st)
    end.

(** [with open(path, 'w', encoding='utf-8') as f: json.dump(v, f, ...)] *)
Definition dump (path : string) (v : json) : Run unit :=
  fun st =>
    if bool_decide (path ∈ read_only st) then
      (Raise (Exn "PermissionError" ("Permission denied: " +:+ path)), st)
    else
      (Return tt, {| files := <[path := Document v]> (files st);
                     read_only := read_only st; stdout := stdout st |}).

(** [print(line)] *)
Definition print (line : string) : Run unit :=
  fun st => (Return tt, {| files := files st; read_only := read_only st;
                           stdout := stdout st ++ [line] |}).

(** A pure computation that may raise. *)
Definition lift {S A} (o : outcome A) : @ReAct.Tool S A := fun st => (o, st).

(** The builtins [int] and [float] applied to a [str]. *)
Variable py_int : string -> outcome Z.
Variable py_float : string -> outcome float.

(** [os.getenv(key)], which is [None] for a variable that is not set. *)
Definition getenv_opt (environ : gmap string string) (key : string) : json :=
  match environ !! key with
  | Some s => JStr s
  | None => JNull
  end.

#[local] Notation "x <- m ;; k" := (ReAct.bind m (fun x => k))
  (at level 100, m at next level, k at level 200, right associativity).

(** The last [return] of [_load_model_config]: the environment. *)
Definition model_config_from_environment (environ : gmap string string)
  : outcome ModelConfig :=
  match py_float (getenv environ "AGENT_TEMPERATURE" "0.1") with
  | Raise e => Raise e
  | Return t =>
      let tokens :=
        match environ !! "AGENT_MAX_TOKENS" with
        | Some text => if truthy text then
                         match py_int text with
                         | Return n => Return (JInt n)
                         | Raise e => Raise e
                         end
                       else Return JNull
        | None => Return JNull
        end in
      match tokens with
      | Raise e => Raise e
      | Return tokens =>
          Return {| provider := JStr (getenv environ "AGENT_MODEL_PROVIDER" "anthropic");
                    model_id := JStr (getenv environ "AGENT_MODEL_ID" "claude-sonnet-4-20250514");
                    api_key := getenv_opt environ "AGENT_API_KEY";
                    api_url := getenv_opt environ "AGENT_API_URL";
                    temperature := JFloat t;
                    max_tokens := tokens |}
      end
  end.

(** [AgentConfigManager._load_model_config]; the default of the
    temperature in the file branch is the float literal [0.1]. *)
Definition _load_model_config (point_one : float) (config_file : string)
    (environ : gmap string string) : Run ModelConfig :=
  found <- path_exists config_file ;;
  from_file <-
    (if found then
       ReAct.try_except
         (config_data <- load config_file ;;
          model_data <- lift (get config_data "model" (JDict [])) ;;
          provider' <- lift (get model_data "provider" (JStr "anthropic")) ;;
          model_id' <- lift (get model_data "model_id" (JStr "claude-sonnet-4-20250514")) ;;
          api_key' <- lift (get model_data "api_key" JNull) ;;
          api_url' <- lift (get model_data "api_url" JNull) ;;
          temperature' <- lift (get model_data "temperature" (JFloat point_one)) ;;
          max_tokens' <- lift (get model_data "max_tokens" JNull) ;;
          ReAct.ret (Some {| provider := provider'; model_id := model_id';
                             api_key := api_key'; api_url := api_url';
                             temperature := temperature';
                             max_tokens := max_tokens' |}))
         (fun e =>
            _ <- print ("配置文件读取失败: " +:+ exn_msg e +:+ "，使用默认配置") ;;
            ReAct.ret None)
     else ReAct.ret None) ;;
  match from_file with
  | Some config => ReAct.ret config
  | None => lift (model_config_from_environment environ)
  end.

(** The last [return] of [_load_timeplus_config]: the environment. *)
Definition timeplus_config_from_environment (environ : gmap string string)
  : outcome TimeplusConfig :=
  match py_int (getenv environ "TIMEPLUS_PORT" "8463") with
  | Raise e => Raise e
  | Return p =>
      Return {| host := JStr (getenv environ "TIMEPLUS_HOST" "localhost");
                port := JInt p;
                user := JStr (getenv environ "TIMEPLUS_USER" "default");
                password := JStr (getenv environ "TIMEPLUS_PASSWORD" "");
                database := JStr (getenv environ "TIMEPLUS_DATABASE" "default");
                table := JStr (getenv environ "TIMEPLUS_TABLE" "t_metrics") |}
  end.

(** [AgentConfigManager._load_timeplus_config] *)
Definition _load_timeplus_config (config_file : string)
    (environ : gmap string string) : Run TimeplusConfig :=
  found <- path_exists config_file ;;
  from_file <-
    (if found then
       ReAct.try_except
         (config_data <- load config_file ;;
          timeplus_data <- lift (get config_data "timeplus" (JDict [])) ;;
          host' <- lift (get timeplus_data "host" (JStr "localhost")) ;;
          port' <- lift (get timeplus_data "port" (JInt 8463)) ;;
          user' <- lift (get timeplus_data "user" (JStr "default")) ;;
          password' <- lift (get timeplus_data "password" (JStr "")) ;;
          database' <- lift (get timeplus_data "database" (JStr "default")) ;;
          table' <- lift (get timeplus_data "table" (JStr "t_metrics")) ;;
          ReAct.ret (Some {| host := host'; port := port'; user := user';
                             password := password'; database := database';
                             table := table' |}))
         (fun _ => ReAct.ret None)
     else ReAct.ret None) ;;
  match from_file with
  | Some config => ReAct.ret config
  | None => lift (timeplus_config_from_environment environ)
  end.

(** [AgentConfigManager.__init__] *)
Definition __init__ (point_one : float) (config_file : string)
    (environ : gmap string string) : Run AgentConfigManager :=
  model <- _load_model_config point_one config_file environ ;;
  timeplus <- _load_timeplus_config config_file environ ;;
  ReAct.ret {| config_file := config_file; model_config := model;
               timeplus_config := timeplus |}.

(** The dictionary [save_config] writes. *)
Definition config_data (m : AgentConfigManager) : json :=
  JDict [
    ("model", JDict [
       ("provider", provider (model_config m));
       ("model_id", model_id (model_config m));
       ("api_key", api_key (model_config m));
       ("api_url", api_url (model_config m));
       ("temperature", temperature (model_config m));
       ("max_tokens", max_tokens (model_config m))
     ]);
    ("timeplus", JDict [
       ("host", host (timeplus_config m));
       ("port", port (timeplus_config m));
       ("user", user (timeplus_config m));
       ("password", password (timeplus_config m));
       ("database", database (timeplus_config m));
       ("table", table (timeplus_config m))
     ])
  ].

(** [AgentConfigManager.save_config] *)
Definition save_config (m : AgentConfigManager) : Run unit :=
  _ <- dump (config_file m) (config_data m) ;;
  print ("配置已保存到: " +:+ config_file m).

(** The manager [configure_model] builds and hands to [create_agent]: a
    new manager on the default file, with five fields of its model
    configuration assigned. *)
Definition temp_config (point_one : float) (environ : gmap string string)
    (provider' model_id' : string) (api_key' api_url' : option string)
    (temperature' : float) : Run AgentConfigManager :=
  temp_config <- __init__ point_one "agent_config.json" environ ;;
  let of_option (a : option string) : json :=
    match a with
    | Some s => JStr s
    | None => JNull
    end in
  ReAct.ret {| config_file := config_file temp_config;
               model_config :=
                 {| provider := JStr provider';
                    model_id := JStr model_id';
                    api_key := of_option api_key';
                    api_url := of_option api_url';
                    temperature := JFloat temperature';
                    max_tokens := max_tokens (model_config temp_config) |};
               timeplus_config := timeplus_config temp_config |}.

(** A configuration whose fields have the declared types, as the tools
    take it. *)
Definition declared (c : TimeplusConfig) : option ReAct.TimeplusConfig :=
  match host c, port c, user c, password c, database c, table c with
  | JStr h, JInt p, JStr u, JStr pw, JStr db, JStr t =>
      Some {| ReAct.host := h; ReAct.port := p; ReAct.user := u;
              ReAct.password := pw; ReAct.database := db; ReAct.table := t |}
  | _, _, _, _, _, _ => None
  end.

(** Truth value of a JSON value; whether a float is zero is left to
    Python. *)
Variable float_truthy : float -> bool.

Definition is_true (v : json) : bool :=
  match v with
  | JNull => false
  | JBool b => b
  | JInt n => negb (n =? 0)
  | JFloat x => float_truthy x
  | JStr s => truthy s
  | JList l => match l with [] => false | _ :: _ => true end
  | JDict d => match d with [] => false | _ :: _ => true end
  end.

(** The model classes of the [agno] library. *)
Inductive model_class := Claude | OpenAI | Groq.

(** The library as seen from this repository: a constructor per class
    that takes keyword arguments and may raise. *)
Class ModelLibrary (L Model : Type) := {
  new_model : model_class -> list (string * json) -> L -> outcome Model * L
}.

(** [str.lower] *)
Variable str_lower : string -> string.

(** [config.provider.lower()]: only a [str] has [lower]. *)
Definition lower_provider (v : json) : outcome string :=
  match v with
  | JStr s => Return (str_lower s)
  | _ => Raise (no_attribute v "lower")
  end.

(** The f-string [f"{config.provider}"] of a provider that is a [str]. *)
Definition provider_text (v : json) : string :=
  match v with
  | JStr s => s
  | _ => ""
  end.

(** The keyword arguments of the three branches of [create_model],
    written once; [with_url] tells whether the branch passes [base_url]. *)
Definition keyword_arguments (with_url : bool) (config : ModelConfig)
  : list (string * json) :=
  [("id", model_id config)]
  ++ (if is_true (api_key config) then [("api_key", api_key config)] else [])
  ++ (if with_url && is_true (api_url config)
      then [("base_url", api_url config)] else [])
  ++ (match temperature config with
      | JNull => []
      | t => [("temperature", t)]
      end)
  ++ (if is_true (max_tokens config)
      then [("max_tokens", max_tokens config)] else []).

(** The file at [path] is a JSON dictionary whose entry [key] is absent
    or a dictionary: [section] is that dictionary, empty when absent. *)
Definition usable (st : os) (path key : string) (section : list (string * json)) : Prop :=
  exists doc,
    files st !! path = Some (Document (JDict doc)) /\
    default (JDict []) (item doc key) = JDict section.

Context {L Model : Type} `{ModelLibrary L Model}.

(** [AgentConfigManager.create_model] *)
Definition create_model (m : AgentConfigManager) : @ReAct.Tool L Model :=
  let config := model_config m in
  name <- lift (lower_provider (provider config)) ;;
  if String.eqb name "anthropic" then
    let kwargs := [("id", model_id config)] in
    let kwargs := if is_true (api_key config)
                  then kwargs ++ [("api_key", api_key config)] else kwargs in
    let kwargs := if is_true (api_url config)
                  then kwargs ++ [("base_url", api_url config)] else kwargs in
    let kwargs := match temperature config with
                  | JNull => kwargs
                  | t => kwargs ++ [("temperature", t)]
                  end in
    let kwargs := if is_true (max_tokens config)
                  then kwargs ++ [("max_tokens", max_tokens config)] else kwargs in
    (fun l => new_model Claude kwargs l)
  else if String.eqb name "openai" then
    let kwargs := [("id", model_id config)] in
    let kwargs := if is_true (api_key config)
                  then kwargs ++ [("api_key", api_key config)] else kwargs in
    let kwargs := if is_true (api_url config)
                  then kwargs ++ [("base_url", api_url config)] else kwargs in
    let kwargs := match temperature config with
                  | JNull => kwargs
                  | t => kwargs ++ [("temperature", t)]
                  end in
    let kwargs := if is_true (max_tokens config)
                  then kwargs ++ [("max_tokens", max_tokens config)] else kwargs in
    (fun l => new_model OpenAI kwargs l)
  else if String.eqb name "groq" then
    let kwargs := [("id", model_id config)] in
    let kwargs := if is_true (api_key config)
                  then kwargs ++ [("api_key", api_key config)] else kwargs in
    let kwargs := match temperature config with
                  | JNull => kwargs
                  | t => kwargs ++ [("temperature", t)]
                  end in
    let kwargs := if is_true (max_tokens config)
                  then kwargs ++ [("max_tokens", max_tokens config)] else kwargs in
    (fun l => new_model Groq kwargs l)
  else
    ReAct.raise (Exn "ValueError"
                     ("不支持的模型提供商: " +:+ provider_text (provider config))).

End Values.

Arguments JNull {float}.
Arguments JBool {float}.
Arguments JInt {float}.
Arguments JFloat {float}.
Arguments JStr {float}.
Arguments JList {float}.
Arguments JDict {float}.
Arguments type_name {float}.
Arguments no_attribute {float}.
Arguments item {float}.
Arguments get {float}.
Arguments provider {float}.
Arguments model_id {float}.
Arguments api_key {float}.
Arguments api_url {float}.
Arguments temperature {float}.
Arguments max_tokens {float}.
Arguments Build_ModelConfig {float}.
Arguments host {float}.
Arguments port {float}.
Arguments user {float}.
Arguments password {float}.
Arguments database {float}.
Arguments table {float}.
Arguments Build_TimeplusConfig {float}.
Arguments config_file {float}.
Arguments model_config {float}.
Arguments timeplus_config {float}.
Arguments Build_AgentConfigManager {float}.
Arguments Document {float}.
Arguments Unloadable {float}.
Arguments files {float}.
Arguments read_only {float}.
Arguments stdout {float}.
Arguments Build_os {float}.
Arguments path_exists {float}.
Arguments load {float}.
Arguments dump {float}.
Arguments print {float}.
Arguments getenv_opt {float}.
Arguments config_data {float}.
Arguments save_config {float}.
Arguments declared {float}.
Arguments usable {float}.
Arguments model_config_from_environment {float} py_int py_float environ.
Arguments _load_model_config {float} py_int py_float point_one config_file environ _.
Arguments timeplus_config_from_environment {float} py_int environ.
Arguments _load_timeplus_config {float} py_int config_file environ _.
Arguments __init__ {float} py_int py_float point_one config_file environ _.
Arguments temp_config {float} py_int py_float point_one environ provider' model_id' api_key' api_url' temperature' _.
Arguments is_true {float} float_truthy v.
Arguments lower_provider {float} str_lower v.
Arguments provider_text {float} v.
Arguments keyword_arguments {float} float_truthy with_url config.
Arguments new_model {float L Model _} _ _ _.
Arguments create_model {float} float_truthy str_lower {L Model H} m _.

End Config.

(** ** Stand-ins for running the v2 agent *)

(** A server whose metadata view raises [e] for [tbl] and that answers
    DESCRIBE with [rows]. *)
Definition view_fails (tbl : string) (e : exn) (rows : list row) : scripted :=
  {| answers := [("SELECT 1", Return [[Int 1]]);
                 (columns_query "default" tbl, Raise e);
                 (describe_query "default" tbl, Return rows)];
     next_handle := 0%nat |}.

(** A server for the v2 tool: it lists [rows] in [system.columns] for
    table [tbl] of the default database. *)
Definition api_server (tbl : string) (rows : list row) : scripted :=
  {| answers := [(ReAct.api_query "default" tbl, Return rows)];
     next_handle := 0%nat |}.

(** A process whose global reader is the default one, not yet connected. *)
Definition running (w : scripted) : process scripted :=
  {| heap := [default_reader]; _schema_reader := Some 0%nat;
     outside := w; history := [] |}.

(** An analyzer that accepts every sign-in, records it, and answers a
    statement with a fixed verdict. *)
#[export] Instance recording_analyzer : ReAct.AnalyzerService (list string) string := {
  ReAct.AnalyzerClient username password h p n :=
    (Return 0%nat, n ++ [username +:+ "@" +:+ ReAct.host_port h p]);
  ReAct.analyze_sql _ sql n := (Return ("valid: " +:+ sql), n)
}.

(** The configuration the v2 agent has when nothing is configured. *)
Definition default_config : ReAct.TimeplusConfig :=
  {| ReAct.host := "localhost"; ReAct.port := 8463; ReAct.user := "default";
     ReAct.password := ""; ReAct.database := "default"; ReAct.table := "t_metrics" |}.

(** Floats stood for by their numerals. *)
Definition numeral_float (s : string) : outcome string := Return s.

(** An operating system with the given files, all writable, and nothing
    printed yet. *)
Definition fresh_os (fs : gmap string (Config.file string)) : Config.os string :=
  {| Config.files := fs; Config.read_only := ∅; Config.stdout := [] |}.

(** A manager as a caller might have set it up. *)
Definition sample_manager : Config.AgentConfigManager string :=
  {| Config.config_file := "agent_config.json";
     Config.model_config :=
       {| Config.provider := Config.JStr "groq";
          Config.model_id := Config.JStr "llama-3.1-70b-versatile";
          Config.api_key := Config.JNull;
          Config.api_url := Config.JNull;
          Config.temperature := Config.JFloat "0.1";
          Config.max_tokens := Config.JNull |};
     Config.timeplus_config :=
       {| Config.host := Config.JStr "metrics-db";
          Config.port := Config.JInt 9000;
          Config.user := Config.JStr "reader";
          Config.password := Config.JStr "";
          Config.database := Config.JStr "default";
          Config.table := Config.JStr "t_metrics" |} |}.

(** The queries of a trace, in the order they were sent. *)
Definition queries (evs : list event) : list string :=
  omap (fun e => match e with EvExecute _ q _ => Some q | _ => None end) evs.

(** The clients the queries of a trace were sent on. *)
Definition queried_clients (evs : list event) : list handle :=
  omap (fun e => match e with EvExecute c _ _ => Some c | _ => None end) evs.

(** The errors a trace logged, with the call site. *)
Definition logged (evs : list event) : list (log_site * exn) :=
  omap (fun e => match e with EvLogError site x => Some (site, x) | _ => None end) evs.

(** The name of a column triple. *)
Definition name_of (col : cell * cell * cell) : cell := col.1.1.

(** The entry a column triple gets in the live dictionary, when its
    description can be computed. *)
Definition entry_of (col : cell * cell * cell) : outcome (cell * cell) :=
  match describe_column col with
  | Return description => Return (name_of col, description)
  | Raise e => Raise e
  end.

(** The description the row loop of the v2 tool gives to a triple that
    has a name: its two [if]s taken together. *)
Definition api_describe (col : cell * cell * cell) : outcome cell :=
  let '(col_name, col_type, comment) := col in
  if cell_truthy comment then iadd col_type (" - " +:+ str comment)
  else
    match business_text V2._get_column_business_descriptions col_name with
    | Some business => iadd col_type (" - " +:+ business)
    | None => Return col_type
    end.

(** The values of a list of computations run in turn, up to the first
    that raises. *)
Fixpoint collect {A} (l : list (outcome A)) : outcome (list A) :=
  match l with
  | [] => Return []
  | Return a :: l' =>
      match collect l' with
      | Return rest => Return (a :: rest)
      | Raise e => Raise e
      end
  | Raise e :: _ => Raise e
  end.

(** The events a call has added to a history of [n] events. *)
Definition added (n : nat) (evs : list event) : list event := drop n evs.

(** * Properties *)

(** ** Facts about cells and ordered dictionaries *)

Lemma cell_eqb_spec (a b : cell) : reflect (a = b) (cell_eqb a b).
Proof.
  destruct a as [s| |n], b as [t| |m]; simpl; try (constructor; congruence).
  - destruct (String.eqb_spec s t); constructor; congruence.
  - destruct (Z.eqb_spec n m); constructor; congruence.
Qed.

Lemma cell_eqb_refl (a : cell) : cell_eqb a a = true.
Proof. destruct (cell_eqb_spec a a); congruence. Qed.

Lemma truthy_spec (s : string) : truthy s = true <-> s <> "".
Proof. destruct s; simpl; split; congruence. Qed.

Lemma truthy_empty (s : string) : truthy s = false <-> s = "".
Proof. destruct s; simpl; split; congruence. Qed.

Lemma dict_get_set (d : dict) (k v k' : cell) :
  dict_get (dict_set d k v) k' = if cell_eqb k k' then Some v else dict_get d k'.
Proof.
  induction d as [|[k0 v0] d IH]; simpl.
  - reflexivity.
  - destruct (cell_eqb_spec k0 k) as [->|Hne]; simpl.
    + destruct (cell_eqb k k'); reflexivity.
    + rewrite IH. destruct (cell_eqb_spec k0 k') as [->|]; [|reflexivity].
      destruct (cell_eqb_spec k k'); congruence.
Qed.

Lemma dict_set_not_empty (d : dict) (k v : cell) : dict_set d k v <> [].
Proof. destruct d as [|[k0 v0] d]; simpl; [|destruct (cell_eqb k0 k)]; discriminate. Qed.

Lemma build_columns_from_not_empty (columns_info : list (cell * cell * cell))
    (d columns : dict) :
  build_columns_from d columns_info = Return columns ->
  d <> [] \/ columns_info <> [] -> columns <> [].
Proof.
  revert d. induction columns_info as [|c l IH]; simpl; intros d Hb Hne.
  - injection Hb as <-. destruct Hne; congruence.
  - destruct (describe_column c); [|discriminate].
    apply (IH _ Hb). left. apply dict_set_not_empty.
Qed.

Lemma build_columns_not_empty (columns_info : list (cell * cell * cell)) (columns : dict) :
  build_columns columns_info = Return columns -> columns_info <> [] -> columns <> [].
Proof. intros Hb Hne. apply (build_columns_from_not_empty _ _ _ Hb). auto. Qed.

(** The static columns of the v2 agent are those of the reader's fallback. *)
Lemma static_columns_agree : V2.static_columns_literal = fallback_columns.
Proof. reflexivity. Qed.

Lemma find_snoc {A} (f : A -> bool) (l : list A) (x : A) :
  find f (l ++ [x])
  = match find f l with
    | Some y => Some y
    | None => if f x then Some x else None
    end.
Proof.
  induction l as [|y l IH]; simpl; [reflexivity|].
  destruct (f y); [reflexivity|exact IH].
Qed.

(** What a loop that succeeded has stored under a key: the description of
    the last triple of that name. *)
Lemma build_columns_from_lookup (columns_info : list (cell * cell * cell))
    (d columns : dict) (n : cell) :
  build_columns_from d columns_info = Return columns ->
  dict_get columns n
  = match last_named n columns_info with
    | Some col =>
        match describe_column col with
        | Return description => Some description
        | Raise _ => None
        end
    | None => dict_get d n
    end.
Proof.
  unfold last_named. revert d.
  induction columns_info as [|c l IH]; simpl; intros d Hb.
  - injection Hb as <-. reflexivity.
  - destruct (describe_column c) as [description|e] eqn:Hc; [|discriminate].
    rewrite (IH _ Hb), find_snoc.
    destruct (find _ (rev l)); [reflexivity|].
    rewrite dict_get_set. destruct (cell_eqb c.1.1 n); [rewrite Hc|]; reflexivity.
Qed.

Lemma build_columns_lookup (columns_info : list (cell * cell * cell))
    (columns : dict) (n : cell) :
  build_columns columns_info = Return columns ->
  dict_get columns n
  = match last_named n columns_info with
    | Some col =>
        match describe_column col with
        | Return description => Some description
        | Raise _ => None
        end
    | None => None
    end.
Proof. intros Hb. apply (build_columns_from_lookup _ _ _ n Hb). Qed.

(** ** Where the merge loop can raise *)

Lemma describe_column_text (col : cell * cell * cell) :
  text_type col = true -> exists description, describe_column col = Return (Text description).
Proof.
  destruct col as [[n t] c]. unfold text_type, describe_column. simpl.
  destruct t as [t| |k]; try discriminate. intros _.
  destruct (cell_truthy c); [simpl; eauto|].
  destruct (business_text _ n); simpl; eauto.
Qed.

Lemma describe_column_raises (col : cell * cell * cell) (e : exn) :
  describe_column col = Raise e -> exn_class e = "TypeError" /\ text_type col = false.
Proof.
  destruct col as [[n t] c]. unfold text_type, describe_column. simpl.
  destruct t as [t| |k], (cell_truthy c); simpl;
    try destruct (business_text _ n); simpl; intros [= <-]; split; reflexivity.
Qed.

Lemma build_columns_from_returns (columns_info : list (cell * cell * cell)) (d : dict) :
  forallb text_type columns_info = true ->
  exists columns, build_columns_from d columns_info = Return columns.
Proof.
  revert d. induction columns_info as [|c l IH]; simpl; intros d Hall; [eauto|].
  apply andb_true_iff in Hall as [Hc Hl].
  destruct (describe_column_text c Hc) as (description & ->). apply IH, Hl.
Qed.

Lemma build_columns_from_raises (columns_info : list (cell * cell * cell)) (d : dict)
    (e : exn) :
  build_columns_from d columns_info = Raise e ->
  exn_class e = "TypeError" /\ forallb text_type columns_info = false.
Proof.
  revert d. induction columns_info as [|c l IH]; simpl; intros d Hb; [discriminate|].
  destruct (describe_column c) as [description|e'] eqn:Hc.
  - destruct (IH _ Hb) as [He Hl]. split; [exact He|].
    rewrite Hl. apply andb_false_r.
  - injection Hb as ->. destruct (describe_column_raises _ _ Hc) as [He Ht].
    split; [exact He|]. rewrite Ht. reflexivity.
Qed.

Lemma text_typed_column (r : row) : text_type (column_of_row r) = text_typed r.
Proof. destruct r as [|a [|b [|c r]]]; reflexivity. Qed.

Lemma text_typed_columns (rows : list row) :
  forallb text_type (map column_of_row rows) = forallb text_typed rows.
Proof.
  induction rows as [|r rows IH]; [reflexivity|].
  cbn [map forallb]. rewrite text_typed_column, IH. reflexivity.
Qed.

Lemma text_typed_described (rows : list row) :
  forallb text_typed rows = true -> forallb text_type (described_columns rows) = true.
Proof.
  induction rows as [|r rows IH]; [reflexivity|]. cbn [forallb]. intros Hall.
  apply andb_true_iff in Hall as [Hr Hrows].
  destruct r as [|a [|b r]]; simpl; auto.
  apply andb_true_iff. split; [exact Hr|auto].
Qed.

Lemma from_columns_returns (r : TimeplusSchemaReader) (tbl : string)
    (columns_info : list (cell * cell * cell)) :
  forallb text_type columns_info = true ->
  exists d, from_columns r tbl columns_info = Return d /\
            table_name d = tbl /\
            (d = _get_fallback_schema tbl \/ source d = "timeplus_api").
Proof.
  intros Hall. unfold from_columns. destruct columns_info as [|c l]; [eauto 10|].
  destruct (build_columns_from_returns (c :: l) [] Hall) as (columns & Hb).
  unfold build_columns. rewrite Hb. eauto 10.
Qed.

Lemma from_columns_raises (r : TimeplusSchemaReader) (tbl : string)
    (columns_info : list (cell * cell * cell)) (e : exn) :
  from_columns r tbl columns_info = Raise e ->
  exn_class e = "TypeError" /\ forallb text_type columns_info = false.
Proof.
  unfold from_columns, build_columns. destruct columns_info as [|c l]; [discriminate|].
  destruct (build_columns_from [] (c :: l)) as [columns|e'] eqn:Hb; [discriminate|].
  intros [= ->]. apply (build_columns_from_raises _ _ _ Hb).
Qed.

(** The triples [resolved] merges for a list of answers, when it merges
    any. *)
Lemma resolved_from_columns (r : TimeplusSchemaReader) (tbl : string) (rs : list response) :
  resolved r tbl rs = Return (_get_fallback_schema tbl) \/
  exists columns_info,
    resolved r tbl rs = from_columns r tbl columns_info /\
    (forallb text_answer rs = true -> forallb text_type columns_info = true).
Proof.
  assert (Hdescribed : forall rest,
    forallb text_answer rest = true ->
    forallb text_type (match rest with Answered a :: _ => described a | _ => [] end) = true).
  { intros [|[ok|[result|e]] rest]; simpl; auto.
    intros Hall. apply andb_true_iff in Hall as [Hres _].
    apply text_typed_described, Hres. }
  unfold resolved.
  destruct rs as [|[[|]|a] rs]; auto.
  destruct rs as [|[ok|[probe|e]] rs]; auto.
  destruct rs as [|[ok|[rows|e]] rs]; auto.
  - right. destruct (map column_of_row rows) as [|c l] eqn:Hcols.
    + eexists. split; [reflexivity|]. intros Hall. simpl in Hall.
      apply andb_true_iff in Hall as [_ Hall]. apply andb_true_iff in Hall as [_ Hall].
      apply Hdescribed, Hall.
    + eexists. split; [reflexivity|]. intros Hall. simpl in Hall.
      apply andb_true_iff in Hall as [_ Hall]. apply andb_true_iff in Hall as [Hrows _].
      rewrite <- Hcols, text_typed_columns. exact Hrows.
  - right. eexists. split; [reflexivity|]. intros Hall. simpl in Hall.
    apply andb_true_iff in Hall as [_ Hall]. apply Hdescribed, Hall.
Qed.

Lemma resolved_returns (r : TimeplusSchemaReader) (tbl : string) (rs : list response) :
  forallb text_answer rs = true ->
  exists d, resolved r tbl rs = Return d /\
            table_name d = tbl /\
            (d = _get_fallback_schema tbl \/ source d = "timeplus_api").
Proof.
  intros Hall. destruct (resolved_from_columns r tbl rs) as [->|(cols & -> & Hcols)].
  - eauto 10.
  - apply from_columns_returns, Hcols, Hall.
Qed.

Lemma resolved_raises (r : TimeplusSchemaReader) (tbl : string) (rs : list response)
    (e : exn) :
  resolved r tbl rs = Raise e ->
  exn_class e = "TypeError" /\ forallb text_answer rs = false.
Proof.
  intros Hr. destruct (resolved_from_columns r tbl rs) as [Hf|(cols & Hc & Hcols)].
  - congruence.
  - rewrite Hc in Hr. destruct (from_columns_raises _ _ _ _ Hr) as [He Hno].
    split; [exact He|]. destruct (forallb text_answer rs); [|reflexivity].
    rewrite Hcols in Hno by reflexivity. discriminate.
Qed.

(** Every triple of a loop that succeeded has a description. *)
Lemma build_columns_from_each (columns_info : list (cell * cell * cell))
    (d columns : dict) (col : cell * cell * cell) :
  build_columns_from d columns_info = Return columns ->
  col ∈ columns_info ->
  exists description, describe_column col = Return description.
Proof.
  revert d. induction columns_info as [|c l IH]; simpl; intros d Hb Hin.
  - inversion Hin.
  - destruct (describe_column c) as [description|e] eqn:Hc; [|discriminate].
    apply elem_of_cons in Hin as [->|Hin]; [eauto|]. apply (IH _ Hb Hin).
Qed.

(** ** The reader against an arbitrary driver *)
Section Reader_properties.

#[local] Arguments columns_query : simpl never.
#[local] Arguments describe_query : simpl never.

Context {W : Type} `{ProtonDriver W}.
Variable PROTON_AVAILABLE : bool.

Ltac unfold_methods :=
  unfold get_schema_dict, get_table_columns, _describe_table,
    connect, try_except, bind, ret, raise, pure, get_self, new_Client,
    assign_client, client_execute, logging_error, emit in *.

(** Case analysis on the next answer of the driver, and on what the
    loops make of it. *)
Ltac ask_driver :=
  match goal with
  | |- context [Client ?a ?w0] =>
      let E := fresh "HClient" in destruct (Client a w0) as [[?c|?e] ?w] eqn:E
  | |- context [execute ?c0 ?q ?w0] =>
      let E := fresh "Hexecute" in destruct (execute c0 q w0) as [[?rows|?e] ?w] eqn:E
  end; simpl.

Ltac next_step :=
  first [ask_driver
        | match goal with
          | |- context [map column_of_row ?r] =>
              destruct (map column_of_row r) eqn:?; simpl
          | |- context [described_columns ?r] =>
              destruct (described_columns r) eqn:?; simpl
          | |- context [build_columns ?l] =>
              destruct (build_columns l) eqn:?; simpl
          end].

Lemma connect_returns (s : mstate) :
  exists b s', connect PROTON_AVAILABLE s = (Return b, s').
Proof.
  unfold_methods. destruct PROTON_AVAILABLE; simpl; [|eauto].
  repeat ask_driver; eauto.
Qed.

(** What a successful [connect] has done. *)
Lemma connect_true (s s1 : mstate) :
  connect PROTON_AVAILABLE s = (Return true, s1) ->
  PROTON_AVAILABLE = true /\
  exists c w1 probe w2,
    Client (args_of (self s)) (world s) = (Return c, w1) /\
    execute c "SELECT 1" w1 = (Return probe, w2) /\
    s1 = {| self := set_client (self s) (Some c); world := w2;
            trace := trace s ++ [EvClient (args_of (self s)) (Return c);
                                 EvExecute c "SELECT 1" (Return probe)] |}.
Proof.
  unfold_methods. unfold args_of. destruct PROTON_AVAILABLE; simpl; [|discriminate].
  repeat ask_driver; intros [= <-]. split; [reflexivity|].
  rewrite <- app_assoc. simpl. eauto 10.
Qed.

Lemma describe_table_returns (tbl : string) (s : mstate) :
  exists cols s', _describe_table tbl s = (Return cols, s').
Proof.
  unfold_methods. destruct (client (self s)); simpl; [|eauto].
  repeat ask_driver; eauto.
Qed.

Lemma get_table_columns_returns (tbl : string) (s : mstate) :
  exists cols s', get_table_columns tbl s = (Return cols, s').
Proof.
  unfold get_table_columns, bind, get_self, try_except.
  destruct (client (self s)) eqn:Hc; [|unfold ret; eauto].
  destruct (client_execute _ s) as [[rows|e] s1] eqn:Hq.
  - destruct (map column_of_row rows) eqn:Hm.
    + destruct (describe_table_returns tbl s1) as (cols & s2 & ->). eauto.
    + unfold ret. eauto.
  - unfold logging_error, emit. cbn beta iota.
    match goal with |- context [_describe_table tbl ?s2] =>
      destruct (describe_table_returns tbl s2) as (cols & s3 & ->) end.
    eauto.
Qed.

(** The two ways [get_schema_dict] ends, by what [connect] and
    [get_table_columns] returned. *)
Lemma resolve_not_connected (tbl : string) (s s1 : mstate) :
  connect PROTON_AVAILABLE s = (Return false, s1) ->
  get_schema_dict PROTON_AVAILABLE tbl s = (Return (_get_fallback_schema tbl), s1).
Proof.
  intros Hc. unfold get_schema_dict, bind. rewrite Hc. reflexivity.
Qed.

Lemma resolve_connected (tbl : string) (s s1 s2 : mstate) cols :
  connect PROTON_AVAILABLE s = (Return true, s1) ->
  get_table_columns tbl s1 = (Return cols, s2) ->
  get_schema_dict PROTON_AVAILABLE tbl s = (from_columns (self s2) tbl cols, s2).
Proof.
  intros Hc Hg. unfold get_schema_dict, bind. rewrite Hc. simpl.
  rewrite Hg. destruct cols as [|c l]; [reflexivity|].
  unfold pure, from_columns. destruct (build_columns (c :: l)); reflexivity.
Qed.

(** Every run of [get_schema_dict] appends to the trace, keeps the
    connection parameters of the receiver, and ends as [resolved] reads
    off the answers it got. *)
Lemma resolve_replays (tbl : string) (s : mstate) :
  exists out s' evs,
    get_schema_dict PROTON_AVAILABLE tbl s = (out, s') /\
    trace s' = trace s ++ evs /\
    out = resolved (self s) tbl (responses evs) /\
    same_parameters (self s') (self s).
Proof.
  unfold_methods. destruct PROTON_AVAILABLE; simpl.
  2: { exists (Return (_get_fallback_schema tbl)), s, []. rewrite app_nil_r. repeat split. }
  repeat next_step;
    do 3 eexists; (split; [reflexivity|]);
    (split; [simpl; rewrite <- ?app_assoc; simpl; reflexivity|]);
    (split; [|repeat split]);
    simpl; unfold from_columns;
    repeat match goal with
           | E : map column_of_row _ = _ |- _ => rewrite E
           | E : described_columns _ = _ |- _ => rewrite E
           | E : build_columns _ = _ |- _ => rewrite E
           end; reflexivity.
Qed.

(** A run stores the client it has constructed, and leaves the receiver
    alone when it has constructed none. *)
Lemma resolve_stores_client (tbl : string) (s : mstate) :
  exists out s' evs,
    get_schema_dict PROTON_AVAILABLE tbl s = (out, s') /\
    trace s' = trace s ++ evs /\
    ((exists c, constructions evs = [Return c] /\
                self s' = set_client (self s) (Some c))
     \/ ((forall c, Return c ∉ constructions evs) /\ self s' = self s)).
Proof.
  unfold_methods. destruct PROTON_AVAILABLE; simpl.
  2: { exists (Return (_get_fallback_schema tbl)), s, [].
       rewrite app_nil_r. repeat split. right. split; [|reflexivity].
       intros c Hc. inversion Hc. }
  repeat next_step;
    do 3 eexists; (split; [reflexivity|]);
    (split; [simpl; rewrite <- ?app_assoc; simpl; reflexivity|]);
    first [left; eexists; split; reflexivity
          |right; split; [|reflexivity]; simpl; intros c' Hc';
           apply list_elem_of_singleton in Hc'; discriminate Hc'].
Qed.

(** C1, amended. [get_schema_dict] returns for every table name, every
    receiver and every behaviour of the driver (construction or queries
    raising, empty answers, rows of any length with text, NULL or integer
    cells) in which the type field of the rows is text: the result is the
    fallback dictionary or one whose source is ["timeplus_api"].  The one
    exception that leaves it is the [TypeError] of its merge loop, and
    only after a row whose type field is not text. *)
Theorem get_schema_dict_raises_only_TypeError (tbl : string) (s s' : mstate)
    (out : outcome schema_dict) (evs : list event) :
  get_schema_dict PROTON_AVAILABLE tbl s = (out, s') ->
  trace s' = trace s ++ evs ->
  (text_types evs = true ->
   exists d, out = Return d /\ table_name d = tbl /\
             (d = _get_fallback_schema tbl \/ source d = "timeplus_api")) /\
  (forall e, out = Raise e -> exn_class e = "TypeError" /\ text_types evs = false).
Proof.
  intros Hrun Htrace.
  destruct (resolve_replays tbl s) as (out' & s1 & evs' & Hrun' & Htrace' & -> & _).
  rewrite Hrun in Hrun'. injection Hrun' as -> <-.
  rewrite Htrace in Htrace'. apply app_inv_head in Htrace'. subst evs'.
  split.
  - intros Htext. apply resolved_returns, Htext.
  - intros e He. apply (resolved_raises _ _ _ _ He).
Qed.

(** C2. A result whose source is ["timeplus_api"] has at least one
    column, and when the column query of a connected reader yields no
    column the result is the fallback dictionary. *)
Theorem live_result_has_columns (tbl : string) (s : mstate) :
  (forall d s', get_schema_dict PROTON_AVAILABLE tbl s = (Return d, s') ->
                source d = "timeplus_api" -> columns d <> []) /\
  (forall s1 s2, connect PROTON_AVAILABLE s = (Return true, s1) ->
                 get_table_columns tbl s1 = (Return [], s2) ->
                 get_schema_dict PROTON_AVAILABLE tbl s = (Return (_get_fallback_schema tbl), s2)).
Proof.
  split.
  - intros d s' Hr Hsrc.
    destruct (connect_returns s) as ([|] & s1 & Hc).
    + destruct (get_table_columns_returns tbl s1) as (cols & s2 & Hg).
      rewrite (resolve_connected _ _ _ _ _ Hc Hg) in Hr. unfold from_columns in Hr.
      destruct cols as [|c cols]; [injection Hr as <- <-; discriminate|].
      destruct (build_columns (c :: cols)) as [columns|e] eqn:Hb; [|discriminate].
      injection Hr as <- <-. simpl.
      apply (build_columns_not_empty _ _ Hb). discriminate.
    + rewrite (resolve_not_connected _ _ _ Hc) in Hr.
      injection Hr as <- <-. discriminate.
  - intros s1 s2 Hc Hg. apply (resolve_connected _ _ _ _ _ Hc Hg).
Qed.

(** [connect] on a server that accepts the client and answers the probe. *)
Lemma connect_healthy (s : mstate) c w1 probe w2 :
  PROTON_AVAILABLE = true ->
  Client (args_of (self s)) (world s) = (Return c, w1) ->
  execute c "SELECT 1" w1 = (Return probe, w2) ->
  connect PROTON_AVAILABLE s
  = (Return true,
     {| self := set_client (self s) (Some c); world := w2;
        trace := trace s ++ [EvClient (args_of (self s)) (Return c);
                             EvExecute c "SELECT 1" (Return probe)] |}).
Proof.
  intros Ha HC HE. unfold_methods. unfold args_of in HC.
  rewrite Ha. simpl. rewrite HC. simpl. rewrite HE. simpl.
  rewrite <- app_assoc. reflexivity.
Qed.

(** [get_table_columns] when the metadata view lists at least one row. *)
Lemma columns_listed (tbl : string) (s : mstate) c rows w :
  client (self s) = Some c ->
  execute c (columns_query (database (self s)) tbl) (world s) = (Return rows, w) ->
  rows <> [] ->
  get_table_columns tbl s
  = (Return (map column_of_row rows),
     {| self := self s; world := w;
        trace := trace s ++ [EvExecute c (columns_query (database (self s)) tbl)
                                       (Return rows)] |}).
Proof.
  intros Hc HQ Hrows. unfold_methods. simpl. rewrite !Hc, HQ. simpl.
  destruct rows; [congruence|]. reflexivity.
Qed.

(** [get_schema_dict] on a server that accepts the client, answers the
    probe and lists at least one row in its metadata view. *)
Lemma resolve_listed (tbl : string) (s : mstate) c w1 probe w2 rows w3 :
  PROTON_AVAILABLE = true ->
  Client (args_of (self s)) (world s) = (Return c, w1) ->
  execute c "SELECT 1" w1 = (Return probe, w2) ->
  execute c (columns_query (database (self s)) tbl) w2 = (Return rows, w3) ->
  rows <> [] ->
  exists s',
    get_schema_dict PROTON_AVAILABLE tbl s
    = (match build_columns (map column_of_row rows) with
       | Return columns => Return (live_schema (self s) tbl columns)
       | Raise e => Raise e
       end, s').
Proof.
  intros Ha HC HP HQ Hrows.
  pose proof (connect_healthy s _ _ _ _ Ha HC HP) as Hconn.
  eexists. erewrite resolve_connected; cycle 1.
  { exact Hconn. }
  { apply (columns_listed tbl _ c rows w3); [reflexivity | exact HQ | exact Hrows]. }
  destruct rows; [congruence|]. reflexivity.
Qed.

(** C8. When the connection attempt fails, [get_schema_dict "t_metrics"]
    returns the fixed list of seventeen columns, in the order and with
    the texts of the source, and the source ["fallback"]. *)
Theorem unreachable_gives_fixed_columns (s s1 : mstate) :
  connect PROTON_AVAILABLE s = (Return false, s1) ->
  exists d,
    get_schema_dict PROTON_AVAILABLE "t_metrics" s = (Return d, s1) /\
    source d = "fallback" /\
    table_name d = "t_metrics" /\
    length (columns d) = 17%nat /\
    columns d =
      texts
      [("event_ts", "uint64 - Event timestamp");
       ("metric", "string - Metric name identifier");
       ("value", "string - Metric value (use to_float64() for numeric operations)");
       ("metric_date", "int64 - Date component");
       ("metric_time", "int64 - Time component");
       ("metric_datetime", "int64 - Combined datetime");
       ("tagK1", "low_cardinality(string) - Tag key 1");
       ("tagV1", "string - Tag value 1");
       ("tagK2", "low_cardinality(string) - Tag key 2");
       ("tagV2", "string - Tag value 2");
       ("tagK3", "low_cardinality(string) - Tag key 3");
       ("tagV3", "string - Tag value 3");
       ("tagK4", "low_cardinality(string) - Tag key 4");
       ("tagV4", "string - Tag value 4");
       ("tagK5", "low_cardinality(string) - Tag key 5");
       ("tagV5", "string - Tag value 5");
       ("_tp_time", "datetime64(3, 'UTC') - System timestamp")].
Proof.
  intros Hc. eexists. split; [apply (resolve_not_connected _ _ _ Hc)|].
  repeat split.
Qed.

(** C4, amended. With no live connection [get_schema_dict] answers every
    table name alike: it returns the fallback dictionary, which echoes the
    name and carries the seventeen columns of t_metrics.  The marker of an
    unsupported table is given by [get_static_schema] of the v2 agent
    only, which has no columns for a name other than ["t_metrics"]. *)
Theorem no_connection_any_table (tbl : string) (s s1 : mstate) :
  connect PROTON_AVAILABLE s = (Return false, s1) ->
  (exists d,
     get_schema_dict PROTON_AVAILABLE tbl s = (Return d, s1) /\
     source d = "fallback" /\
     table_name d = tbl /\
     columns d = fallback_columns /\
     length (columns d) = 17%nat) /\
  (tbl <> "t_metrics" ->
   V2.success (V2.get_static_schema tbl) = false /\
   V2.static_source (V2.get_static_schema tbl) = "unsupported_table" /\
   V2.static_columns (V2.get_static_schema tbl) = None).
Proof.
  intros Hc. split.
  - eexists. split; [apply (resolve_not_connected _ _ _ Hc)|]. repeat split.
  - intros Hne. unfold V2.get_static_schema.
    destruct (String.eqb_spec tbl "t_metrics"); [contradiction|]. repeat split.
Qed.

(** C5, amended. A row with fewer than three fields raises nothing and
    causes no fallback: its missing fields are read as empty strings and
    the live result is built from all the rows, the short ones included.
    The call ends as the merge loop ends on the padded rows, which
    returns whenever the type fields that are there are text. *)
Theorem short_rows_are_padded (tbl : string) (s : mstate) c w1 probe w2 rows w3 :
  PROTON_AVAILABLE = true ->
  Client (args_of (self s)) (world s) = (Return c, w1) ->
  execute c "SELECT 1" w1 = (Return probe, w2) ->
  execute c (columns_query (database (self s)) tbl) w2 = (Return rows, w3) ->
  rows <> [] ->
  (exists s',
     get_schema_dict PROTON_AVAILABLE tbl s
     = (match build_columns (map column_of_row rows) with
        | Return columns => Return (live_schema (self s) tbl columns)
        | Raise e => Raise e
        end, s')) /\
  (forallb text_typed rows = true ->
   exists columns, build_columns (map column_of_row rows) = Return columns) /\
  (forall r, r ∈ rows -> malformed r ->
     column_of_row r = (nth 0 r (Text ""), nth 1 r (Text ""), Text "") /\
     column_of_row r ∈ map column_of_row rows /\
     forall columns, build_columns (map column_of_row rows) = Return columns ->
                     is_Some (dict_get columns (nth 0 r (Text "")))).
Proof.
  intros Ha HC HP HQ Hrows. split; [|split].
  - apply (resolve_listed tbl s c w1 probe w2 rows w3); assumption.
  - intros Htext. apply build_columns_from_returns.
    rewrite text_typed_columns. exact Htext.
  - intros r Hin Hshort.
    assert (Hcol : column_of_row r = (nth 0 r (Text ""), nth 1 r (Text ""), Text "")).
    { unfold malformed in Hshort. unfold column_of_row.
      destruct r as [|a [|b [|c0 r]]]; simpl in *; try reflexivity; lia. }
    assert (Hmem : column_of_row r ∈ map column_of_row rows).
    { apply list_elem_of_fmap. eauto. }
    split; [exact Hcol|]. split; [exact Hmem|].
    intros columns Hb. rewrite (build_columns_lookup _ _ (nth 0 r (Text "")) Hb).
    unfold last_named.
    destruct (find _ _) as [col|] eqn:Hf.
    + apply find_some in Hf as [Hcin _]. apply in_rev, list_elem_of_In in Hcin.
      destruct (build_columns_from_each _ _ _ col Hb Hcin) as (description & ->).
      eauto.
    + exfalso. assert (Hno := find_none _ _ Hf (column_of_row r)).
      rewrite Hcol in Hno at 2. simpl in Hno. rewrite cell_eqb_refl in Hno.
      enough (false = true) by discriminate. symmetry. apply Hno.
      apply in_rev. rewrite rev_involutive. apply list_elem_of_In. exact Hmem.
Qed.

(** C6. When a connected reader gets zero rows from the metadata view,
    DESCRIBE is run exactly once before [get_schema_dict] ends, and the
    result is the fallback dictionary exactly when DESCRIBE yields no
    column either; otherwise the call ends as the merge loop ends on the
    described columns: with the live result, whenever their types are
    text. *)
Theorem describe_once_after_empty_view (tbl : string) (s : mstate) c w1 probe w2 w3 :
  PROTON_AVAILABLE = true ->
  Client (args_of (self s)) (world s) = (Return c, w1) ->
  execute c "SELECT 1" w1 = (Return probe, w2) ->
  execute c (columns_query (database (self s)) tbl) w2 = (Return [], w3) ->
  exists out s' evs,
    get_schema_dict PROTON_AVAILABLE tbl s = (out, s') /\
    trace s' = trace s ++ evs /\
    times_run (describe_query (database (self s)) tbl) evs = 1%nat /\
    let cols := described (execute c (describe_query (database (self s)) tbl) w3).1 in
    out = match cols with
          | [] => Return (_get_fallback_schema tbl)
          | _ :: _ =>
              match build_columns cols with
              | Return columns => Return (live_schema (self s) tbl columns)
              | Raise e => Raise e
              end
          end /\
    (out = Return (_get_fallback_schema tbl) <-> cols = []) /\
    (forallb text_type cols = true -> exists d, out = Return d).
Proof.
  intros Ha HC HP HQ. unfold args_of in HC. unfold_methods.
  rewrite Ha. simpl. rewrite HC. simpl. rewrite HP. simpl. rewrite HQ. simpl.
  destruct (execute c (describe_query _ _) w3) as [[result|e] w4] eqn:HD; simpl.
  - destruct (described_columns result) as [|col cols] eqn:Hcols; simpl.
    + do 3 eexists. split; [reflexivity|].
      split; [simpl; rewrite <- ?app_assoc; simpl; reflexivity|].
      split; [unfold times_run; simpl; rewrite String.eqb_refl; reflexivity|].
      split; [reflexivity|]. split; [split; reflexivity|eauto].
    + destruct (build_columns (col :: cols)) as [columns|e] eqn:Hb; simpl;
        do 3 eexists; (split; [reflexivity|]);
        (split; [simpl; rewrite <- ?app_assoc; simpl; reflexivity|]);
        (split; [unfold times_run; simpl; rewrite String.eqb_refl; reflexivity|]);
        (split; [reflexivity|]); (split; [split; discriminate|]).
      * eauto.
      * intros Htext.
        destruct (build_columns_from_returns (col :: cols) [] Htext) as (columns & Hc).
        unfold build_columns in Hb. congruence.
  - do 3 eexists. split; [reflexivity|].
    split; [simpl; rewrite <- ?app_assoc; simpl; reflexivity|].
    split; [unfold times_run; simpl; rewrite String.eqb_refl; reflexivity|].
    split; [reflexivity|]. split; [split; reflexivity|eauto].
Qed.

(** C7, amended. A call constructs at most one client, and a new one on
    every call for which the driver is installed; no client is ever
    disconnected; and a client that was constructed stays stored in the
    reader when the call has ended, whatever the queries did. *)
Theorem client_outlives_call (tbl : string) (s : mstate) :
  exists out s' evs,
    get_schema_dict PROTON_AVAILABLE tbl s = (out, s') /\
    trace s' = trace s ++ evs /\
    disconnections evs = [] /\
    (PROTON_AVAILABLE = false /\ constructions evs = [] /\ self s' = self s
     \/ PROTON_AVAILABLE = true /\
        ((exists e, constructions evs = [Raise e] /\ self s' = self s) \/
         (exists c, constructions evs = [Return c] /\
                    self s' = set_client (self s) (Some c)))).
Proof.
  unfold_methods. destruct PROTON_AVAILABLE; simpl.
  2: { exists (Return (_get_fallback_schema tbl)), s, [].
       rewrite app_nil_r. repeat split. left. repeat split. }
  repeat next_step;
    do 3 eexists; (split; [reflexivity|]);
    (split; [simpl; rewrite <- ?app_assoc; simpl; reflexivity|]);
    (split; [reflexivity|]); right; (split; [reflexivity|]);
    first [left; eexists; split; reflexivity
          |right; eexists; split; reflexivity].
Qed.


End Reader_properties.

(** ** The row loop of the v2 schema tool *)

Lemma api_column_step (d : dict) (r : row) :
  V2.api_column d r
  = if cell_truthy (name_of (column_of_row r)) then
      match api_describe (column_of_row r) with
      | Return description => Return (dict_set d (name_of (column_of_row r)) description)
      | Raise e => Raise e
      end
    else Return d.
Proof.
  unfold V2.api_column, api_describe, name_of.
  destruct r as [|a [|b [|c r]]]; cbn [length nth Nat.ltb Nat.leb andb column_of_row fst snd].
  - reflexivity.
  - destruct (cell_truthy a); [|reflexivity]. cbn [cell_truthy truthy negb].
    destruct (business_text _ a); reflexivity.
  - destruct (cell_truthy a); [|reflexivity]. cbn [cell_truthy truthy negb].
    destruct (business_text _ a); [destruct (iadd b _)|]; reflexivity.
  - destruct (cell_truthy a); [|reflexivity].
    destruct (cell_truthy c) eqn:Hc; cbn [cell_truthy truthy negb]; rewrite ?Hc; cbn [negb].
    + destruct (iadd b _); [|reflexivity]. destruct (business_text _ a); reflexivity.
    + destruct (business_text _ a); [destruct (iadd b _)|]; reflexivity.
Qed.

Lemma api_describe_text (col : cell * cell * cell) :
  text_type col = true -> exists description, api_describe col = Return (Text description).
Proof.
  destruct col as [[n t] c]. unfold text_type, api_describe. simpl.
  destruct t as [t| |k]; try discriminate. intros _.
  destruct (cell_truthy c); [simpl; eauto|].
  destruct (business_text _ n); simpl; eauto.
Qed.

Lemma api_columns_from_returns (rows : list row) (d : dict) :
  forallb text_typed rows = true ->
  exists columns, V2.api_columns_from d rows = Return columns.
Proof.
  revert d. induction rows as [|r rows IH]; simpl; intros d Hall; [eauto|].
  apply andb_true_iff in Hall as [Hr Hrows]. rewrite api_column_step.
  destruct (cell_truthy _); [|apply IH, Hrows].
  rewrite <- text_typed_column in Hr.
  destruct (api_describe_text _ Hr) as (description & ->). apply IH, Hrows.
Qed.

(** What the v2 loop has stored under a name: the description of the
    last row of that name. *)
Lemma api_columns_from_lookup (rows : list row) (d columns : dict) (n : cell) :
  cell_truthy n = true ->
  V2.api_columns_from d rows = Return columns ->
  dict_get columns n
  = match last_named n (map column_of_row rows) with
    | Some col =>
        match api_describe col with
        | Return description => Some description
        | Raise _ => None
        end
    | None => dict_get d n
    end.
Proof.
  intros Hn. unfold last_named. revert d.
  induction rows as [|r rows IH]; simpl; intros d Hb.
  - injection Hb as <-. reflexivity.
  - rewrite api_column_step in Hb. rewrite find_snoc. unfold name_of in Hb.
    destruct (cell_truthy (column_of_row r).1.1) eqn:Hname.
    + destruct (api_describe (column_of_row r)) as [description|e] eqn:Hc; [|discriminate].
      rewrite (IH _ Hb). destruct (find _ (rev _)); [reflexivity|].
      rewrite dict_get_set.
      destruct (cell_eqb (column_of_row r).1.1 n); [rewrite Hc|]; reflexivity.
    + rewrite (IH _ Hb). destruct (find _ (rev _)); [reflexivity|].
      destruct (cell_eqb_spec (column_of_row r).1.1 n) as [Heq|]; [|reflexivity].
      rewrite Heq in Hname. congruence.
Qed.

(** ** The merge of comments *)
Section Merge_properties.

#[local] Arguments columns_query : simpl never.
#[local] Arguments ReAct.api_query : simpl never.

Context {W : Type} `{ProtonDriver W}.

(** The values [proton_driver] gives to the keyword arguments that the
    v2 tool leaves out. *)
Variables default_user default_password default_database : string.

(** C3. In the live result of [get_schema_dict] the description of a
    column comes from its (last) row [(col_name, col_type, comment)] of
    the metadata view: a non-empty database comment is used and no
    business text is added; an empty comment is replaced by the business
    text of the name when the table has one; and otherwise the
    description is the database type alone.  The result of
    [get_table_schema_from_api] merges in the same way, with its own
    table of business texts. *)
Theorem live_comment_merge (col_name col_type comment : string) (rows : list row) :
  last_named (Text col_name) (map column_of_row rows)
  = Some (Text col_name, Text col_type, Text comment) ->
  forallb text_typed rows = true ->
  (forall (tbl : string) (s : mstate) c w1 probe w2 w3,
     Client (args_of (self s)) (world s) = (Return c, w1) ->
     execute c "SELECT 1" w1 = (Return probe, w2) ->
     execute c (columns_query (database (self s)) tbl) w2 = (Return rows, w3) ->
     exists d s' description,
       get_schema_dict true tbl s = (Return d, s') /\
       source d = "timeplus_api" /\
       dict_get (columns d) (Text col_name) = Some (Text description) /\
       (comment <> "" -> description = col_type +:+ " - " +:+ comment) /\
       (comment = "" -> forall business,
          _get_column_descriptions !! col_name = Some business ->
          description = col_type +:+ " - " +:+ business) /\
       (comment = "" -> _get_column_descriptions !! col_name = None ->
          description = col_type)) /\
  (col_name <> "" ->
   forall (config : ReAct.TimeplusConfig) (tbl : string) (s : ReAct.session) c w1 w2,
     Client (ClientArgs (ReAct.host config) (ReAct.port config)
                        default_user default_password default_database)
            (ReAct.net s) = (Return c, w1) ->
     execute c (ReAct.api_query (ReAct.database config) tbl) w1 = (Return rows, w2) ->
     exists r s' columns description,
       ReAct.get_table_schema_from_api true default_user default_password
         default_database config tbl s = (Return r, s') /\
       ReAct.api_source r = "timeplus_api" /\
       ReAct.api_column_dict r = Some columns /\
       dict_get columns (Text col_name) = Some (Text description) /\
       (comment <> "" -> description = col_type +:+ " - " +:+ comment) /\
       (comment = "" -> forall business,
          V2._get_column_business_descriptions !! col_name = Some business ->
          description = col_type +:+ " - " +:+ business) /\
       (comment = "" -> V2._get_column_business_descriptions !! col_name = None ->
          description = col_type)).
Proof.
  intros Hlast Htext.
  assert (Hrows : rows <> []) by (intros ->; discriminate Hlast).
  split.
  - intros tbl s c w1 probe w2 w3 HC HP HQ.
    destruct (resolve_listed true tbl s c w1 probe w2 rows w3 eq_refl HC HP HQ Hrows)
      as (s' & Hrun).
    destruct (build_columns_from_returns (map column_of_row rows) [])
      as (columns & Hb); [rewrite text_typed_columns; exact Htext|].
    fold (build_columns (map column_of_row rows)) in Hb. rewrite Hb in Hrun.
    pose proof (build_columns_lookup _ _ (Text col_name) Hb) as Hget.
    rewrite Hlast in Hget. unfold describe_column in Hget.
    cbn [cell_truthy str iadd business_text] in Hget.
    exists (live_schema (self s) tbl columns), s'.
    destruct (truthy comment) eqn:Hc.
    + apply truthy_spec in Hc.
      eexists. split; [exact Hrun|]. split; [reflexivity|].
      split; [exact Hget|]. repeat split; congruence.
    + apply truthy_empty in Hc.
      destruct (_get_column_descriptions !! col_name) as [business|] eqn:Hb';
        cbn [iadd] in Hget;
        eexists; (split; [exact Hrun|]); (split; [reflexivity|]);
        (split; [exact Hget|]); repeat split; congruence.
  - intros Hname config tbl s c w1 w2 HC HQ.
    destruct (api_columns_from_returns rows [] Htext) as (columns & Hb).
    assert (Htruthy : cell_truthy (Text col_name) = true) by (apply truthy_spec, Hname).
    pose proof (api_columns_from_lookup rows [] columns (Text col_name) Htruthy Hb) as Hget.
    rewrite Hlast in Hget. unfold api_describe in Hget.
    cbn [cell_truthy str iadd business_text] in Hget.
    assert (Hsome : is_Some (dict_get columns (Text col_name))).
    { rewrite Hget. destruct (truthy comment); [eauto|].
      destruct (_ !! col_name); cbn [iadd]; eauto. }
    assert (Hrun : exists r s',
      ReAct.get_table_schema_from_api true default_user default_password
        default_database config tbl s = (Return r, s') /\
      ReAct.api_source r = "timeplus_api" /\
      ReAct.api_column_dict r = Some columns).
    { unfold ReAct.get_table_schema_from_api, ReAct.try_except, ReAct.bind,
        ReAct.ret, ReAct.pure, ReAct.new_client, ReAct.execute_on.
      simpl. rewrite HC. simpl. rewrite HQ. simpl.
      unfold V2.api_columns. rewrite Hb.
      destruct columns as [|kv columns]; [destruct Hsome; discriminate|].
      eexists _, _. split; [reflexivity|]. split; reflexivity. }
    destruct Hrun as (r & s' & Hrun & Hsrc & Hdict).
    exists r, s', columns.
    destruct (truthy comment) eqn:Hc.
    + apply truthy_spec in Hc.
      eexists. split; [exact Hrun|]. split; [exact Hsrc|].
      split; [exact Hdict|]. split; [exact Hget|]. repeat split; congruence.
    + apply truthy_empty in Hc.
      destruct (V2._get_column_business_descriptions !! col_name) as [business|] eqn:Hb';
        cbn [iadd] in Hget;
        eexists; (split; [exact Hrun|]); (split; [exact Hsrc|]);
        (split; [exact Hdict|]); (split; [exact Hget|]); repeat split; congruence.
Qed.

End Merge_properties.

(** With unique column names every triple is the last of its name. *)
Lemma last_named_unique (columns_info : list (cell * cell * cell)) col :
  NoDup (map (fun c => c.1.1) columns_info) ->
  col ∈ columns_info ->
  last_named col.1.1 columns_info = Some col.
Proof.
  unfold last_named. induction columns_info as [|c l IH]; intros Hnd Hin.
  - inversion Hin.
  - simpl in *. rewrite find_snoc. apply NoDup_cons in Hnd as [Hc Hnd].
    apply elem_of_cons in Hin as [->|Hin].
    + destruct (find _ (rev l)) as [c'|] eqn:Hf.
      * exfalso. apply find_some in Hf as [Hc' He].
        destruct (cell_eqb_spec c'.1.1 c.1.1) as [He'|]; [|discriminate].
        apply Hc. rewrite <- He'.
        apply list_elem_of_fmap. exists c'. split; [reflexivity|].
        apply list_elem_of_In, in_rev. exact Hc'.
      * rewrite cell_eqb_refl. reflexivity.
    + rewrite (IH Hnd Hin). reflexivity.
Qed.

(** ** The global reader *)
Section Module_properties.

Context {W : Type} `{ProtonDriver W}.
Variable PROTON_AVAILABLE : bool.
Variable py_int : string -> outcome Z.

Lemma same_parameters_trans (a b c : TimeplusSchemaReader) :
  same_parameters a b -> same_parameters b c -> same_parameters a c.
Proof. unfold same_parameters. intuition congruence. Qed.

(** A method call on the shared reader keeps it shared. *)
Lemma call_keeps_sharing a n r (p : process W) tbl :
  shares a n r p ->
  shares a n r (call_method a (get_schema_dict PROTON_AVAILABLE tbl) p).2.
Proof.
  intros (Hg & Hlen & r' & Hr' & Hsame). unfold call_method. rewrite Hr'.
  destruct (resolve_replays PROTON_AVAILABLE tbl
              {| self := r'; world := outside p; trace := history p |})
    as (out & s' & evs & -> & _ & _ & Hp).
  unfold shares. simpl in *. split; [exact Hg|]. split; [rewrite length_insert; exact Hlen|].
  exists (self s'). split.
  - apply list_lookup_insert_eq. apply lookup_lt_Some in Hr'. exact Hr'.
  - eapply same_parameters_trans; eassumption.
Qed.

Lemma later_calls_keep_sharing a n r calls (p : process W) :
  shares a n r p -> shares a n r (later_calls PROTON_AVAILABLE py_int calls p).
Proof.
  revert p. induction calls as [|[environ tbl] calls IH]; intros p Hp; [exact Hp|].
  simpl. apply IH.
  unfold get_table_schema, get_schema_reader.
  destruct Hp as (Hg & Hrest). rewrite Hg.
  apply call_keeps_sharing. split; assumption.
Qed.

(** When the port text of the environment is no integer, the first call
    raises what [int] raised and leaves the global unset. *)
Lemma first_call_bad_port environ tbl (p : process W) e :
  _schema_reader p = None ->
  py_int (getenv environ "TIMEPLUS_PORT" "8463") = Raise e ->
  get_table_schema PROTON_AVAILABLE py_int environ tbl p = (Raise e, p).
Proof.
  intros Hg Hint.
  unfold get_table_schema, get_schema_reader, __init__.
  rewrite Hg, Hint. reflexivity.
Qed.

(** A call once the global is set: [get_schema_dict] runs on the stored
    object and the object it leaves is stored in its place. *)
Lemma call_through_global environ tbl (p : process W) a shared :
  _schema_reader p = Some a ->
  heap p !! a = Some shared ->
  let run := get_schema_dict PROTON_AVAILABLE tbl
               {| self := shared; world := outside p; trace := history p |} in
  get_table_schema PROTON_AVAILABLE py_int environ tbl p
  = (run.1, {| heap := <[a := self run.2]> (heap p); _schema_reader := Some a;
               outside := world run.2; history := trace run.2 |}).
Proof.
  intros Hg Hr. cbv zeta. unfold get_table_schema, get_schema_reader, call_method.
  rewrite Hg, Hr, Hg. destruct (get_schema_dict _ _ _) as [out s']. reflexivity.
Qed.

Lemma insert_last {A} (l : list A) (x y : A) : <[length l := y]> (l ++ [x]) = l ++ [y].
Proof. induction l as [|z l IH]; simpl; [reflexivity|]. f_equal. exact IH. Qed.

(** C10, amended. [get_table_schema] resolves through one reader for the
    whole process.  A first call whose construction succeeds (the port
    text of the environment is one [int] accepts) runs on the new reader
    and stores it in the global.  After any later calls, whatever their
    environments, the global still holds the same address, no other
    reader has been constructed and the stored reader has the parameters
    captured by the first call.  The next call of any caller runs on
    that stored object as the calls before have left it, its client
    included, and stores back the object as it leaves it: with the client
    it has constructed, or with the client it found when it has
    constructed none. *)
Theorem first_reader_is_shared environ tbl (p0 : process W) r calls :
  _schema_reader p0 = None ->
  __init__ py_int environ None None None None None = Return r ->
  let a := length (heap p0) in
  let first := get_schema_dict PROTON_AVAILABLE tbl
                 {| self := r; world := outside p0; trace := history p0 |} in
  let p1 := {| heap := heap p0 ++ [self first.2]; _schema_reader := Some a;
               outside := world first.2; history := trace first.2 |} in
  get_table_schema PROTON_AVAILABLE py_int environ tbl p0 = (first.1, p1) /\
  let p := later_calls PROTON_AVAILABLE py_int calls
             (get_table_schema PROTON_AVAILABLE py_int environ tbl p0).2 in
  _schema_reader p = Some a /\
  length (heap p) = S (length (heap p0)) /\
  (forall environ', get_schema_reader py_int environ' p = (Return a, p)) /\
  exists shared,
    heap p !! a = Some shared /\
    same_parameters shared r /\
    forall environ' tbl',
      let next := get_schema_dict PROTON_AVAILABLE tbl'
                    {| self := shared; world := outside p; trace := history p |} in
      let evs := added (length (history p)) (trace next.2) in
      get_table_schema PROTON_AVAILABLE py_int environ' tbl' p
      = (next.1, {| heap := <[a := self next.2]> (heap p); _schema_reader := Some a;
                    outside := world next.2; history := trace next.2 |}) /\
      ((exists c, constructions evs = [Return c] /\ client (self next.2) = Some c)
       \/ ((forall c, Return c ∉ constructions evs) /\
           client (self next.2) = client shared)).
Proof.
  intros Hnone Hinit a first p1.
  assert (Hfirst : get_table_schema PROTON_AVAILABLE py_int environ tbl p0 = (first.1, p1)).
  { unfold get_table_schema, get_schema_reader, call_method.
    rewrite Hnone, Hinit. simpl.
    rewrite (list_lookup_middle (heap p0) [] r (length (heap p0)) eq_refl).
    unfold p1, first, a. destruct (get_schema_dict _ _ _) as [out s']. simpl.
    rewrite insert_last. reflexivity. }
  split; [exact Hfirst|]. intros p.
  assert (Hp : p = later_calls PROTON_AVAILABLE py_int calls p1)
    by (unfold p; rewrite Hfirst; reflexivity).
  clearbody p. subst p. set (p := later_calls PROTON_AVAILABLE py_int calls p1).
  assert (Hp1 : shares a (S (length (heap p0))) r p1).
  { destruct (resolve_replays PROTON_AVAILABLE tbl
                {| self := r; world := outside p0; trace := history p0 |})
      as (out & s' & evs & Hrun & _ & _ & Hsame).
    split; [reflexivity|]. split.
    - simpl. rewrite length_app. simpl. lia.
    - exists (self first.2). split; [apply list_lookup_middle; reflexivity|].
      unfold first. rewrite Hrun. exact Hsame. }
  apply (later_calls_keep_sharing _ _ _ calls) in Hp1. fold p in Hp1.
  destruct Hp1 as (Hg & Hlen & shared & Hshared & Hsame).
  split; [exact Hg|]. split; [exact Hlen|]. split.
  { intros environ'. unfold get_schema_reader. rewrite Hg. reflexivity. }
  exists shared. split; [exact Hshared|]. split; [exact Hsame|].
  intros environ' tbl' next evs. split.
  - apply (call_through_global environ' tbl' p a shared Hg Hshared).
  - destruct (resolve_stores_client PROTON_AVAILABLE tbl'
                {| self := shared; world := outside p; trace := history p |})
      as (out & s' & evs' & Hrun & Htrace & Hclient).
    assert (Hevs : evs = evs').
    { unfold evs, next, added. rewrite Hrun. simpl in *. rewrite Htrace.
      apply drop_app_length. }
    rewrite Hevs. unfold next. rewrite Hrun. simpl in *.
    destruct Hclient as [(c & Hc & ->)|(Hno & ->)]; [left|right; split; trivial].
    exists c. split; [exact Hc|reflexivity].
Qed.

End Module_properties.

(** ** Concrete runs on the scripted driver *)

(** A full row and a row of one field, all text: the call returns a live
    result. *)
Lemma get_schema_dict_raises_only_TypeError_witness :
  let s := start (healthy "t_metrics" [cells ["metric"; "string"; ""]; cells ["shard"]]) in
  let run := get_schema_dict true "t_metrics" s in
  text_types (trace run.2) = true /\
  exists d, run.1 = Return d /\ table_name d = "t_metrics" /\
            (d = _get_fallback_schema "t_metrics" \/ source d = "timeplus_api").
Proof.
  intros s run.
  assert (Htext : text_types (trace run.2) = true) by (vm_compute; reflexivity).
  split; [exact Htext|].
  destruct (get_schema_dict_raises_only_TypeError true "t_metrics" s run.2 run.1
              (trace run.2) (surjective_pairing _) eq_refl) as [Hret _].
  exact (Hret Htext).
Defined.

(** A server listing one column gives a live result with a column; a
    server listing none, and knowing no DESCRIBE, gives the fallback. *)
Lemma live_result_has_columns_witness :
  (exists d s',
     get_schema_dict true "t_metrics"
       (start (healthy "t_metrics" [cells ["metric"; "string"; ""]])) = (Return d, s') /\
     source d = "timeplus_api" /\ columns d <> []) /\
  (exists s1 s2,
     connect true (start (healthy "t_metrics" [])) = (Return true, s1) /\
     get_table_columns "t_metrics" s1 = (Return [], s2) /\
     get_schema_dict true "t_metrics" (start (healthy "t_metrics" []))
     = (Return (_get_fallback_schema "t_metrics"), s2)).
Proof.
  split.
  - eexists _, _. split; [vm_compute; reflexivity|]. split; [reflexivity|].
    eapply (proj1 (live_result_has_columns true "t_metrics"
                     (start (healthy "t_metrics" [cells ["metric"; "string"; ""]])))).
    + vm_compute. reflexivity.
    + reflexivity.
  - eexists _, _. split; [vm_compute; reflexivity|].
    split; [vm_compute; reflexivity|].
    eapply (proj2 (live_result_has_columns true "t_metrics"
                     (start (healthy "t_metrics" [])))).
    + vm_compute. reflexivity.
    + vm_compute. reflexivity.
Defined.

(** The three cases of the merge in one result of the reader, and the
    business text of the v2 agent in the result of its tool. *)
Lemma live_comment_merge_witness :
  let rows := [cells ["metric"; "string"; ""];
               cells ["value"; "string"; "raw reading"];
               cells ["shard"; "uint8"]] in
  (exists d s',
     get_schema_dict true "t_metrics" (start (healthy "t_metrics" rows)) = (Return d, s') /\
     dict_get (columns d) (Text "metric") = Some (Text "string - Metric name identifier") /\
     dict_get (columns d) (Text "value") = Some (Text "string - raw reading") /\
     dict_get (columns d) (Text "shard") = Some (Text "uint8")) /\
  (exists r s' columns,
     ReAct.get_table_schema_from_api true "default" "" "" default_config "t_metrics"
       {| ReAct.net := api_server "t_metrics" rows; ReAct.seen := [] |} = (Return r, s') /\
     ReAct.api_column_dict r = Some columns /\
     dict_get columns (Text "metric")
     = Some (Text "string - Metric identifier for filtering and grouping")).
Proof.
  intros rows.
  assert (Htext : forallb text_typed rows = true) by reflexivity.
  pose (w := {| answers := answers (healthy "t_metrics" rows); next_handle := 1%nat |}).
  pose (v := {| answers := answers (api_server "t_metrics" rows); next_handle := 1%nat |}).
  destruct (live_comment_merge (H := scripted_driver) "default" "" ""
              "metric" "string" "" rows eq_refl Htext) as [Hreader Htool].
  destruct (live_comment_merge (H := scripted_driver) "default" "" ""
              "value" "string" "raw reading" rows eq_refl Htext) as [Hvalue _].
  destruct (live_comment_merge (H := scripted_driver) "default" "" ""
              "shard" "uint8" "" rows eq_refl Htext) as [Hshard _].
  destruct (Hreader "t_metrics" (start (healthy "t_metrics" rows)) 0%nat w [[Int 1]] w w
              ltac:(reflexivity) ltac:(reflexivity) ltac:(reflexivity))
    as (d & s' & d1 & Hrun & _ & G1 & _ & B1 & _).
  destruct (Hvalue "t_metrics" (start (healthy "t_metrics" rows)) 0%nat w [[Int 1]] w w
              ltac:(reflexivity) ltac:(reflexivity) ltac:(reflexivity))
    as (d' & s2 & d2 & Hrun2 & _ & G2 & C2 & _ & _).
  destruct (Hshard "t_metrics" (start (healthy "t_metrics" rows)) 0%nat w [[Int 1]] w w
              ltac:(reflexivity) ltac:(reflexivity) ltac:(reflexivity))
    as (d'' & s3 & d3 & Hrun3 & _ & G3 & _ & _ & N3).
  rewrite Hrun in Hrun2, Hrun3. injection Hrun2 as <- <-. injection Hrun3 as <- <-.
  rewrite (B1 eq_refl "Metric name identifier" eq_refl) in G1.
  rewrite (C2 ltac:(discriminate)) in G2.
  rewrite (N3 eq_refl eq_refl) in G3.
  split; [exists d, s'; repeat split; assumption|].
  destruct (Htool ltac:(discriminate) default_config "t_metrics"
              {| ReAct.net := api_server "t_metrics" rows; ReAct.seen := [] |} 0%nat v v
              ltac:(reflexivity) ltac:(reflexivity))
    as (r & t' & columns & d4 & Htrun & _ & Hdict & G4 & _ & B4 & _).
  rewrite (B4 eq_refl "Metric identifier for filtering and grouping" eq_refl) in G4.
  exists r, t', columns. repeat split; assumption.
Defined.

(** The probe of an unreachable server raises, and the seventeen names
    come back in source order. *)
Lemma unreachable_gives_fixed_columns_witness :
  exists s1 d,
    connect true (start unreachable) = (Return false, s1) /\
    get_schema_dict true "t_metrics" (start unreachable) = (Return d, s1) /\
    source d = "fallback" /\
    length (columns d) = 17%nat /\
    dict_keys (columns d)
    = cells ["event_ts"; "metric"; "value"; "metric_date"; "metric_time";
             "metric_datetime"; "tagK1"; "tagV1"; "tagK2"; "tagV2"; "tagK3"; "tagV3";
             "tagK4"; "tagV4"; "tagK5"; "tagV5"; "_tp_time"].
Proof.
  eexists.
  assert (Hc : connect true (start unreachable) = (Return false, _))
    by (vm_compute; reflexivity).
  destruct (unreachable_gives_fixed_columns true (start unreachable) _ Hc)
    as (d & Hd & Hsrc & _ & Hlen & Hcols).
  exists d. split; [exact Hc|]. split; [exact Hd|]. split; [exact Hsrc|].
  split; [exact Hlen|]. rewrite Hcols. reflexivity.
Defined.

(** Without the driver, table ["orders"] is answered with the fallback
    dictionary; the v2 tool marks it unsupported. *)
Lemma no_connection_any_table_witness :
  exists s1 d,
    connect false (start unreachable) = (Return false, s1) /\
    get_schema_dict false "orders" (start unreachable) = (Return d, s1) /\
    source d = "fallback" /\ table_name d = "orders" /\
    columns d = fallback_columns /\
    V2.static_source (V2.get_static_schema "orders") = "unsupported_table".
Proof.
  eexists.
  assert (Hc : connect false (start unreachable) = (Return false, _))
    by (vm_compute; reflexivity).
  destruct (no_connection_any_table false "orders" (start unreachable) _ Hc)
    as [(d & Hd & Hsrc & Hname & Hcols & _) Hv2].
  destruct (Hv2 ltac:(discriminate)) as (_ & Hmark & _).
  exists d. repeat split; assumption.
Defined.

(** A row of one field next to a full row: both are in the live result. *)
Lemma short_rows_are_padded_witness :
  let rows := [cells ["metric"; "string"; ""]; cells ["shard"]] in
  malformed (cells ["shard"]) /\
  (exists columns s',
     build_columns (map column_of_row rows) = Return columns /\
     get_schema_dict true "t_metrics" (start (healthy "t_metrics" rows))
     = (Return (live_schema default_reader "t_metrics" columns), s') /\
     is_Some (dict_get columns (Text "shard"))) /\
  column_of_row (cells ["shard"]) = (Text "shard", Text "", Text "").
Proof.
  intros rows.
  pose (w := {| answers := answers (healthy "t_metrics" rows);
                next_handle := 1%nat |}).
  destruct (short_rows_are_padded (H := scripted_driver) true "t_metrics"
              (start (healthy "t_metrics" rows))
              0%nat w [[Int 1]] w rows w
              eq_refl ltac:(reflexivity) ltac:(reflexivity) ltac:(reflexivity)
              ltac:(discriminate))
    as ((s' & Hrun) & Hreturns & Hrow).
  assert (Hshort : malformed (cells ["shard"])) by (unfold malformed; simpl; lia).
  destruct (Hrow (cells ["shard"]) ltac:(apply list_elem_of_In; simpl; tauto) Hshort)
    as (Hcol & _ & Hkey).
  destruct (Hreturns eq_refl) as (columns & Hb).
  rewrite Hb in Hrun.
  split; [exact Hshort|]. split; [|exact Hcol].
  exists columns, s'. split; [exact Hb|]. split; [exact Hrun|]. exact (Hkey columns Hb).
Defined.

(** An empty metadata view and a DESCRIBE of two rows, one of them too
    short to count: one DESCRIBE in the trace, one live column. *)
Lemma describe_once_after_empty_view_witness :
  let w0 := describable "t_metrics" [cells ["metric"; "string"]; cells ["orphan"]] in
  exists d s',
    get_schema_dict true "t_metrics" (start w0) = (Return d, s') /\
    times_run (describe_query "default" "t_metrics") (trace s') = 1%nat /\
    d = live_schema default_reader "t_metrics"
          (texts [("metric", "string - Metric name identifier")]) /\
    d <> _get_fallback_schema "t_metrics".
Proof.
  intros w0.
  pose (w := {| answers := answers w0; next_handle := 1%nat |}).
  destruct (describe_once_after_empty_view (H := scripted_driver) true "t_metrics"
              (start w0) 0%nat w [[Int 1]] w w
              eq_refl ltac:(reflexivity) ltac:(reflexivity) ltac:(reflexivity))
    as (out & s' & evs & Hrun & Htrace & Hcount & Hout & _).
  assert (Hd : out = Return (live_schema default_reader "t_metrics"
                               (texts [("metric", "string - Metric name identifier")])))
    by (rewrite Hout; reflexivity).
  rewrite Hd in Hrun.
  eexists _, s'. simpl in Htrace. rewrite Htrace.
  split; [exact Hrun|]. split; [exact Hcount|].
  split; [reflexivity|]. discriminate.
Defined.


(** The reader made by the first call survives later calls made under an
    environment that would break the constructor, and each call leaves
    its client in it for the next caller. *)
Lemma first_reader_is_shared_witness :
  let at_import : gmap string string :=
    <["TIMEPLUS_HOST" := "metrics-db"]> (<["TIMEPLUS_PORT" := "9000"]> ∅) in
  let later : gmap string string :=
    <["TIMEPLUS_HOST" := "elsewhere"]> (<["TIMEPLUS_PORT" := "not a number"]> ∅) in
  let p0 := imported (healthy "t_metrics" [cells ["metric"; "string"; ""]]) in
  let p1 := (get_table_schema true int_of_numeral at_import "t_metrics" p0).2 in
  let p := later_calls true int_of_numeral [(later, "t_metrics"); (later, "orders")] p1 in
  _schema_reader p0 = None /\
  _schema_reader p = Some 0%nat /\
  length (heap p) = 1%nat /\
  exists shared,
    heap p !! 0%nat = Some shared /\
    host shared = "metrics-db" /\ port shared = 9000 /\
    client shared = Some 2%nat /\
    client <$> heap (get_table_schema true int_of_numeral later "t_metrics" p).2 !! 0%nat
    = Some (Some 3%nat).
Proof.
  intros at_import later p0 p1 p. split; [reflexivity|].
  pose (r := {| host := "metrics-db"; port := 9000; user := "default";
                password := ""; database := "default"; client := None |}).
  assert (Hinit : __init__ int_of_numeral at_import None None None None None = Return r)
    by (vm_compute; reflexivity).
  pose proof (first_reader_is_shared true int_of_numeral at_import "t_metrics" p0 r
                [(later, "t_metrics"); (later, "orders")] eq_refl Hinit) as Hone.
  cbv zeta in Hone.
  destruct Hone as (_ & Hg & Hlen & _ & shared & Hshared & (Hh & Hp & _) & Hnext).
  fold p1 in Hg, Hlen, Hshared, Hnext. fold p in Hg, Hlen, Hshared, Hnext.
  assert (Hs : shared = {| host := "metrics-db"; port := 9000; user := "default";
                           password := ""; database := "default";
                           client := Some 2%nat |}).
  { assert (Hv : heap p !! 0%nat
                 = Some {| host := "metrics-db"; port := 9000; user := "default";
                           password := ""; database := "default";
                           client := Some 2%nat |}) by (vm_compute; reflexivity).
    assert (Hsome : Some shared
                    = Some {| host := "metrics-db"; port := 9000; user := "default";
                              password := ""; database := "default";
                              client := Some 2%nat |})
      by (rewrite <- Hshared; exact Hv).
    injection Hsome as ->. reflexivity. }
  split; [exact Hg|]. split; [exact Hlen|].
  exists shared. split; [exact Hshared|]. split; [exact Hh|]. split; [exact Hp|].
  split; [rewrite Hs; reflexivity|].
  destruct (Hnext later "t_metrics") as [Hcall Hclient]. rewrite Hcall. cbn [snd heap].
  rewrite list_lookup_insert_eq by (apply lookup_lt_Some in Hshared; exact Hshared).
  cbn [fmap option_fmap option_map]. do 2 f_equal.
  destruct Hclient as [(c & Hcons & ->)|(Hno & _)].
  - rewrite Hs in Hcons. vm_compute in Hcons. injection Hcons as <-. reflexivity.
  - exfalso. apply (Hno 3%nat). rewrite Hs. vm_compute. apply list_elem_of_here.
Defined.

(** ** Where the code departs from the description *)

(** C1, as stated, fails: on a healthy connection, a row whose type field
    is [None] and whose name the business table knows, or whose type is a
    number next to a comment, makes [get_schema_dict] raise a
    [TypeError]. *)
Lemma type_that_is_not_text_raises :
  (exists e s',
     get_schema_dict true "t_metrics"
       (start (healthy "t_metrics" [[Text "metric"; Null; Text ""]])) = (Raise e, s') /\
     exn_class e = "TypeError" /\
     constructions (trace s') = [Return 0%nat]) /\
  (exists e s',
     get_schema_dict true "t_metrics"
       (start (healthy "t_metrics" [cells ["metric"; "string"; ""];
                                    [Text "shard"; Int 8; Text "shard number"]]))
     = (Raise e, s') /\
     exn_class e = "TypeError").
Proof.
  split; eexists _, _; (split; [vm_compute; reflexivity|]); repeat split.
Qed.

(** C4, as stated, fails: with the server out of reach, a table that is
    not t_metrics gets the seventeen columns of t_metrics under the
    ["fallback"] source, and nothing in the result says it is
    unsupported. *)
Lemma unknown_table_gets_t_metrics_columns :
  "orders" <> "t_metrics" /\
  exists d s',
    get_schema_dict true "orders" (start unreachable) = (Return d, s') /\
    source d = "fallback" /\
    length (columns d) = 17%nat /\
    ~ (columns d = [] \/ says_unsupported d = true).
Proof.
  split; [discriminate|].
  eexists _, _. split; [vm_compute; reflexivity|].
  split; [reflexivity|]. split; [reflexivity|].
  intros [Hempty|Hsays]; [discriminate Hempty|].
  vm_compute in Hsays. discriminate Hsays.
Qed.

(** C5, as stated, fails: a row of one field is not absorbed by the
    fallback; the result is live and holds a column made from that row. *)
Lemma short_row_reaches_live_result :
  malformed (cells ["shard"]) /\
  exists d s',
    get_schema_dict true "t_metrics" (start (healthy "t_metrics" [cells ["shard"]]))
    = (Return d, s') /\
    source d = "timeplus_api" /\
    columns d = texts [("shard", "")] /\
    d <> _get_fallback_schema "t_metrics".
Proof.
  split; [unfold malformed; simpl; lia|].
  eexists _, _. split; [vm_compute; reflexivity|].
  split; [reflexivity|]. split; [reflexivity|]. discriminate.
Qed.

(** C7, as stated, fails: after a call that succeeded, and after one whose
    probe failed, the client that was constructed is still stored in the
    reader and was never disconnected. *)
Lemma client_kept_after_return :
  (exists d s',
     get_schema_dict true "t_metrics"
       (start (healthy "t_metrics" [cells ["metric"; "string"; ""]])) = (Return d, s') /\
     source d = "timeplus_api" /\
     constructions (trace s') = [Return 0%nat] /\
     disconnections (trace s') = [] /\
     client (self s') = Some 0%nat) /\
  (exists d s',
     get_schema_dict true "t_metrics" (start unreachable) = (Return d, s') /\
     source d = "fallback" /\
     constructions (trace s') = [Return 0%nat] /\
     disconnections (trace s') = [] /\
     client (self s') = Some 0%nat).
Proof.
  split; eexists _, _; (split; [vm_compute; reflexivity|]); repeat split.
Qed.

(** C10, as stated, fails: when [int] rejects the port text of the
    environment, the first call raises a [ValueError] and constructs no
    reader, and so does the call after it. *)
Lemma unreadable_port_constructs_nothing :
  let environ : gmap string string := <["TIMEPLUS_PORT" := "not a number"]> ∅ in
  let p0 := imported (healthy "t_metrics" [cells ["metric"; "string"; ""]]) in
  _schema_reader p0 = None /\
  exists e,
    get_table_schema true int_of_numeral environ "t_metrics" p0 = (Raise e, p0) /\
    exn_class e = "ValueError" /\
    heap p0 = [] /\
    history p0 = [] /\
    later_calls true int_of_numeral [(environ, "t_metrics")] p0 = p0.
Proof.
  intros environ p0. split; [reflexivity|].
  eexists. split; [vm_compute; reflexivity|]. repeat split.
Qed.

(** * Further properties of the code *)

(** ** The dictionary of live columns *)

Lemma dict_set_fresh (d : dict) (k v : cell) :
  k ∉ dict_keys d -> dict_set d k v = d ++ [(k, v)].
Proof.
  induction d as [|[k0 v0] d IH]; simpl; intros Hk; [reflexivity|].
  apply not_elem_of_cons in Hk as [Hne Hk].
  destruct (cell_eqb_spec k0 k) as [->|_]; [congruence|].
  rewrite (IH Hk). reflexivity.
Qed.

Lemma dict_set_keys (d : dict) (k v : cell) :
  dict_keys (dict_set d k v)
  = if bool_decide (k ∈ dict_keys d) then dict_keys d else dict_keys d ++ [k].
Proof.
  induction d as [|[k0 v0] d IH]; simpl; [reflexivity|].
  destruct (cell_eqb_spec k0 k) as [->|Hne]; simpl.
  - rewrite bool_decide_eq_true_2 by apply list_elem_of_here. reflexivity.
  - rewrite IH. destruct (bool_decide (k ∈ dict_keys d)) eqn:Hin.
    + apply bool_decide_eq_true_1 in Hin.
      rewrite bool_decide_eq_true_2 by (apply list_elem_of_further; exact Hin).
      reflexivity.
    + apply bool_decide_eq_false_1 in Hin.
      rewrite bool_decide_eq_false_2; [reflexivity|].
      intros Hc. apply elem_of_cons in Hc as [?|?]; congruence.
Qed.

Lemma dict_set_keys_elem (d : dict) (k v n : cell) :
  n ∈ dict_keys (dict_set d k v) <-> n ∈ dict_keys d \/ n = k.
Proof.
  rewrite dict_set_keys. case_bool_decide.
  - split; [auto|]. intros [?| ->]; assumption.
  - rewrite elem_of_app, list_elem_of_singleton. tauto.
Qed.

Lemma dict_set_keys_NoDup (d : dict) (k v : cell) :
  NoDup (dict_keys d) -> NoDup (dict_keys (dict_set d k v)).
Proof.
  intros Hd. rewrite dict_set_keys. case_bool_decide; [exact Hd|].
  apply NoDup_app. split; [exact Hd|]. split; [|apply NoDup_singleton].
  intros x Hx Hx'. apply list_elem_of_singleton in Hx'. congruence.
Qed.

Lemma dict_set_length (d : dict) (k v : cell) :
  (length (dict_set d k v) <= S (length d))%nat.
Proof.
  induction d as [|[k0 v0] d IH]; simpl; [lia|].
  destruct (cell_eqb k0 k); simpl; lia.
Qed.

Lemma build_columns_from_keys (l : list (cell * cell * cell)) (d d' : dict) :
  build_columns_from d l = Return d' ->
  NoDup (dict_keys d) ->
  NoDup (dict_keys d') /\
  (forall n, n ∈ dict_keys d' <-> n ∈ dict_keys d \/ n ∈ map name_of l) /\
  (length d' <= length d + length l)%nat.
Proof.
  revert d. induction l as [|c l IH]; intros d Hb Hd; simpl in *.
  - injection Hb as <-. split; [exact Hd|]. split; [|lia].
    intros n. rewrite elem_of_nil. tauto.
  - destruct (describe_column c) as [description|e]; [|discriminate].
    destruct (IH _ Hb (dict_set_keys_NoDup d c.1.1 description Hd))
      as (Hnd & Hkeys & Hlen).
    split; [exact Hnd|]. split.
    + intros n. rewrite Hkeys, dict_set_keys_elem, elem_of_cons. unfold name_of.
      tauto.
    + pose proof (dict_set_length d c.1.1 description). lia.
Qed.

(** X1. When the column names of the rows are distinct, the live
    dictionary holds one entry per row, in the order of the rows: the
    position order of the database is the order of the result.  The loop
    raises exactly when the description of some row does, and then what
    the first such row raises. *)
Theorem live_columns_follow_rows (columns_info : list (cell * cell * cell)) :
  NoDup (map name_of columns_info) ->
  build_columns columns_info = collect (map entry_of columns_info).
Proof.
  unfold build_columns.
  assert (Hgen : forall d,
    NoDup (dict_keys d ++ map name_of columns_info) ->
    build_columns_from d columns_info
    = match collect (map entry_of columns_info) with
      | Return entries => Return (d ++ entries)
      | Raise e => Raise e
      end).
  { induction columns_info as [|c l IH]; intros d Hnd; simpl.
    - rewrite app_nil_r. reflexivity.
    - apply NoDup_app in Hnd as (Hd & Hdisj & Hl).
      apply NoDup_cons in Hl as [Hc Hl].
      assert (Hfresh : c.1.1 ∉ dict_keys d).
      { intros Hin. apply (Hdisj _ Hin). apply list_elem_of_here. }
      unfold entry_of at 1.
      destruct (describe_column c) as [description|e]; [|reflexivity].
      rewrite (dict_set_fresh _ _ _ Hfresh), IH.
      + destruct (collect (map entry_of l)); [|reflexivity].
        rewrite <- app_assoc. reflexivity.
      + unfold dict_keys in *. rewrite map_app. simpl.
        apply NoDup_app. split; [|split; [|exact Hl]].
        * apply NoDup_app. split; [exact Hd|]. split; [|apply NoDup_singleton].
          intros x Hx Hx'. apply list_elem_of_singleton in Hx'. congruence.
        * intros x Hx Hx'. apply elem_of_app in Hx as [Hx|Hx].
          -- apply (Hdisj _ Hx). apply list_elem_of_further. exact Hx'.
          -- apply list_elem_of_singleton in Hx. subst x. exact (Hc Hx'). }
  intros Hnd. rewrite (Hgen []); [|exact Hnd].
  destruct (collect _); reflexivity.
Qed.

(** X2. Whatever the rows, a live dictionary has each key once, its keys
    are exactly the names that occur in the rows, and it is no longer than
    the list of rows: rows of a repeated name share one entry. *)
Theorem live_columns_keys (columns_info : list (cell * cell * cell)) (columns : dict) :
  build_columns columns_info = Return columns ->
  NoDup (dict_keys columns) /\
  (forall n, n ∈ dict_keys columns <-> n ∈ map name_of columns_info) /\
  (length columns <= length columns_info)%nat.
Proof.
  intros Hb.
  destruct (build_columns_from_keys columns_info [] columns Hb NoDup_nil_2)
    as (Hnd & Hkeys & Hlen).
  split; [exact Hnd|]. split; [|exact Hlen].
  intros n. rewrite (Hkeys n). simpl. rewrite elem_of_nil. tauto.
Qed.

(** ** The paths of one call *)
Section Reader_paths.

Context {W : Type} `{ProtonDriver W}.
Variable PROTON_AVAILABLE : bool.

#[local] Arguments columns_query : simpl never.
#[local] Arguments describe_query : simpl never.

Ltac run_methods :=
  unfold get_schema_dict, get_table_columns, _describe_table,
    connect, try_except, bind, ret, raise, pure, get_self, new_Client,
    assign_client, client_execute, logging_error, emit in *.

Ltac next_answer :=
  match goal with
  | |- context [Client ?a ?w0] =>
      let E := fresh "HClient" in destruct (Client a w0) as [[?c|?e] ?w] eqn:E
  | |- context [execute ?c0 ?q ?w0] =>
      let E := fresh "Hexecute" in destruct (execute c0 q w0) as [[?rows|?e] ?w] eqn:E
  | |- context [map column_of_row ?r] =>
      destruct (map column_of_row r) eqn:?
  | |- context [described_columns ?r] =>
      destruct (described_columns r) eqn:?
  | |- context [build_columns ?l] =>
      destruct (build_columns l) eqn:?
  end; simpl.

(** X3. One call sends at most three queries, always in the order probe,
    metadata view, DESCRIBE, and only on the client it has just
    constructed; when the driver is not installed it changes nothing. *)
Theorem bounded_round_trips (tbl : string) (s : mstate) :
  exists out s' evs,
    get_schema_dict PROTON_AVAILABLE tbl s = (out, s') /\
    trace s' = trace s ++ evs /\
    queries evs `prefix_of`
      ["SELECT 1"; columns_query (database (self s)) tbl;
       describe_query (database (self s)) tbl] /\
    (forall c, c ∈ queried_clients evs -> constructions evs = [Return c]) /\
    (PROTON_AVAILABLE = false -> s' = s).
Proof.
  run_methods. destruct PROTON_AVAILABLE; simpl.
  2: { exists (Return (_get_fallback_schema tbl)), s, [].
       rewrite app_nil_r. repeat split.
       - eexists. reflexivity.
       - intros c Hc. inversion Hc. }
  repeat next_answer;
    do 3 eexists; (split; [reflexivity|]);
    (split; [simpl; rewrite <- ?app_assoc; simpl; reflexivity|]);
    (split; [eexists; reflexivity|]);
    (split; [|discriminate]);
    simpl; intros c' Hc';
    repeat (apply elem_of_cons in Hc' as [->|Hc']; [reflexivity|]);
    inversion Hc'.
Qed.

(** X4. When the metadata query of a connected reader raises, the error
    is logged and DESCRIBE is run once in its place: the call ends with
    the fallback when there are no described columns, and otherwise as
    the merge loop ends on them, with the live result whenever their
    types are text. *)
Theorem describe_after_failed_view (tbl : string) (s : mstate) c w1 probe w2 e w3 :
  PROTON_AVAILABLE = true ->
  Client (args_of (self s)) (world s) = (Return c, w1) ->
  execute c "SELECT 1" w1 = (Return probe, w2) ->
  execute c (columns_query (database (self s)) tbl) w2 = (Raise e, w3) ->
  exists out s' evs,
    get_schema_dict PROTON_AVAILABLE tbl s = (out, s') /\
    trace s' = trace s ++ evs /\
    times_run (describe_query (database (self s)) tbl) evs = 1%nat /\
    (LogColumns, e) ∈ logged evs /\
    let cols := described (execute c (describe_query (database (self s)) tbl) w3).1 in
    out = match cols with
          | [] => Return (_get_fallback_schema tbl)
          | _ :: _ =>
              match build_columns cols with
              | Return columns => Return (live_schema (self s) tbl columns)
              | Raise e' => Raise e'
              end
          end /\
    (forallb text_type cols = true -> exists d, out = Return d).
Proof.
  intros Ha HC HP HQ. unfold args_of in HC. run_methods.
  rewrite Ha. simpl. rewrite HC. simpl. rewrite HP. simpl. rewrite HQ. simpl.
  destruct (execute c (describe_query _ _) w3) as [[result|e'] w4] eqn:HD; simpl;
    [destruct (described_columns result) as [|col cols] eqn:Hcols; simpl;
     [|destruct (build_columns (col :: cols)) as [columns|e'] eqn:Hb; simpl]|];
    do 3 eexists; (split; [reflexivity|]);
    (split; [simpl; rewrite <- ?app_assoc; simpl; reflexivity|]);
    (split; [unfold times_run; simpl; rewrite String.eqb_refl; reflexivity|]);
    (split; [simpl; apply list_elem_of_here|]);
    (split; [reflexivity|]); eauto.
  intros Htext.
  destruct (build_columns_from_returns (col :: cols) [] Htext) as (columns & Hc).
  unfold build_columns in Hb. congruence.
Qed.

(** X5. Before any connection the helper methods give up quietly:
    [get_table_columns] returns no column and touches nothing, and
    [_describe_table] turns the missing client into a logged
    [AttributeError] and returns no column, without a driver call. *)
Theorem helpers_without_client (tbl : string) (s : mstate) :
  client (self s) = None ->
  get_table_columns tbl s = (Return [], s) /\
  exists e,
    exn_class e = "AttributeError" /\
    _describe_table tbl s
    = (Return [], {| self := self s; world := world s;
                     trace := trace s ++ [EvLogError LogDescribe e] |}).
Proof.
  intros Hc. run_methods. simpl. rewrite !Hc. simpl.
  split; [reflexivity|]. eexists. split; [|reflexivity]. reflexivity.
Qed.

End Reader_paths.


(** X6. The DESCRIBE loop is the metadata loop after dropping the rows of
    fewer than two fields: the rows kept are padded in the same way, and
    the answer counts as empty exactly when no row has two fields. *)
Theorem describe_drops_short_rows (result : list row) :
  described_columns result
  = map column_of_row (List.filter (fun r => (2 <=? length r)%nat) result) /\
  (described_columns result = [] <->
   Forall (fun r => (length r < 2)%nat) result).
Proof.
  split.
  - induction result as [|r result IH]; [reflexivity|].
    destruct r as [|a [|b r]]; simpl; try exact IH.
    rewrite IH. reflexivity.
  - induction result as [|r result IH].
    + split; [constructor|reflexivity].
    + rewrite Forall_cons. destruct r as [|a [|b r]]; simpl.
      * rewrite IH. intuition lia.
      * rewrite IH. intuition lia.
      * split; [discriminate|]. intros [Hr _]. lia.
Qed.

(** ** Constructing the reader and calling through the global *)
Section Construction.

Context {W : Type} `{ProtonDriver W}.
Variable PROTON_AVAILABLE : bool.
Variable py_int : string -> outcome Z.


(** X8. An argument given as the empty string, or a port given as zero,
    counts as not given: an empty password or port 0 cannot be chosen,
    the environment (or the default) takes its place. *)
Theorem falsy_arguments_are_unset (environ : gmap string string)
    (h u pw db : option string) (p : option Z) :
  let blank (a : option string) :=
    match a with Some "" => None | _ => a end in
  let nonzero (a : option Z) :=
    match a with Some 0 => None | _ => a end in
  __init__ py_int environ h p u pw db
  = __init__ py_int environ (blank h) (nonzero p) (blank u) (blank pw) (blank db).
Proof.
  unfold __init__.
  destruct h as [[|? ?]|], u as [[|? ?]|], pw as [[|? ?]|], db as [[|? ?]|],
           p as [[|?|?]|]; reflexivity.
Qed.

(** X9. The constructor raises in one case only: the port is not given
    (or is zero) and [int] rejects the port text of the environment; it
    then raises what [int] raised. *)
Theorem constructor_fails_only_on_port (environ : gmap string string)
    (h u pw db : option string) (p : option Z) (e : exn) :
  __init__ py_int environ h p u pw db = Raise e <->
  (p = None \/ p = Some 0) /\
  py_int (getenv environ "TIMEPLUS_PORT" "8463") = Raise e.
Proof.
  unfold __init__. destruct p as [n|].
  - destruct (Z.eqb_spec n 0) as [->|Hn].
    + destruct (py_int _) as [z|e']; split.
      * discriminate.
      * intros [_ Hr]. discriminate.
      * intros [= ->]. auto.
      * intros [_ [= ->]]. reflexivity.
    + split; [discriminate|]. intros [[?|[= ?]] _]; congruence.
  - destruct (py_int _) as [z|e']; split.
    + discriminate.
    + intros [_ Hr]. discriminate.
    + intros [= ->]. auto.
    + intros [_ [= ->]]. reflexivity.
Qed.

(** X10. Once the global reader exists, [get_table_schema] never looks
    at the environment again and cannot fail in the constructor: under
    every environment a later call ends alike and leaves the same reader
    shared.  It returns a dictionary whenever the types of the rows it
    received are text, and what it can raise is the [TypeError] of the
    merge loop of [get_schema_dict] only. *)
Theorem later_call_ignores_environment (environ : gmap string string) (tbl : string)
    a n r (p : process W) :
  shares a n r p ->
  exists out p',
    get_table_schema PROTON_AVAILABLE py_int environ tbl p = (out, p') /\
    shares a n r p' /\
    (forall environ',
       get_table_schema PROTON_AVAILABLE py_int environ' tbl p = (out, p')) /\
    (text_types (added (length (history p)) (history p')) = true ->
     exists d, out = Return d) /\
    (forall e, out = Raise e -> exn_class e = "TypeError").
Proof.
  intros Hs.
  assert (Hcall : forall environ',
    get_table_schema PROTON_AVAILABLE py_int environ' tbl p
    = call_method a (get_schema_dict PROTON_AVAILABLE tbl) p).
  { intros environ'. unfold get_table_schema, get_schema_reader.
    destruct Hs as (-> & _). reflexivity. }
  pose proof (call_keeps_sharing PROTON_AVAILABLE a n r p tbl Hs) as Hkeep.
  destruct (call_method a (get_schema_dict PROTON_AVAILABLE tbl) p) as [out p'] eqn:Hm.
  exists out, p'. split; [apply Hcall|]. split; [exact Hkeep|].
  split; [exact Hcall|].
  unfold call_method in Hm. destruct Hs as (_ & _ & r' & Hr' & _).
  rewrite Hr' in Hm.
  destruct (resolve_replays PROTON_AVAILABLE tbl
              {| self := r'; world := outside p; trace := history p |})
    as (out' & s' & evs & Hrun & Htrace & Hout & _).
  rewrite Hrun in Hm. injection Hm as <- <-. simpl in *.
  rewrite Htrace. unfold added. rewrite drop_app_length. subst out'. split.
  - intros Htext. destruct (resolved_returns r' tbl _ Htext) as (d & -> & _). eauto.
  - intros e He. apply (resolved_raises _ _ _ _ He).
Qed.

End Construction.

(** ** The keys of the v2 schema tool *)

Lemma business_tables_same_keys (n : cell) :
  business_text _get_column_descriptions n = None <->
  business_text V2._get_column_business_descriptions n = None.
Proof.
  assert (Hdom : dom _get_column_descriptions
                 = dom V2._get_column_business_descriptions)
    by (vm_compute; reflexivity).
  destruct n as [n| |k]; simpl; [|tauto|tauto].
  split; intros Hn; apply not_elem_of_dom; apply not_elem_of_dom in Hn;
    congruence.
Qed.

Lemma name_of_column (r : row) : name_of (column_of_row r) = nth 0 r (Text "").
Proof. destruct r as [|a [|b [|c r]]]; reflexivity. Qed.

Lemma api_columns_from_keys (rows : list row) (d d' : dict) :
  V2.api_columns_from d rows = Return d' ->
  NoDup (dict_keys d) ->
  (forall n, n ∈ dict_keys d -> cell_truthy n = true) ->
  NoDup (dict_keys d') /\
  (forall n, n ∈ dict_keys d' -> cell_truthy n = true) /\
  (forall n, n ∈ dict_keys d' <->
     n ∈ dict_keys d \/
     (cell_truthy n = true /\ n ∈ map (fun r => nth 0 r (Text "")) rows)).
Proof.
  revert d. induction rows as [|r rows IH]; intros d Hb Hd Ht; cbn [V2.api_columns_from] in Hb.
  - injection Hb as <-. split; [exact Hd|]. split; [exact Ht|].
    intros n. cbn [map]. rewrite elem_of_nil. tauto.
  - cbn [map]. rewrite api_column_step, name_of_column in Hb.
    destruct (cell_truthy (nth 0 r (Text ""))) eqn:Hname.
    + destruct (api_describe (column_of_row r)) as [description|e]; [|discriminate].
      set (key := nth 0 r (Text "")) in *.
      assert (Ht' : forall n, n ∈ dict_keys (dict_set d key description) ->
                              cell_truthy n = true).
      { intros n Hn. apply dict_set_keys_elem in Hn as [Hn| ->]; auto. }
      destruct (IH _ Hb (dict_set_keys_NoDup d key description Hd) Ht')
        as (Hnd' & Hz' & Hk').
      split; [exact Hnd'|]. split; [exact Hz'|].
      intros n. rewrite Hk', dict_set_keys_elem, elem_of_cons. split.
      * intros [[?| ->]|[? ?]]; auto.
      * intros [?|[? [ ->|?]]]; auto.
    + destruct (IH _ Hb Hd Ht) as (Hnd' & Hz' & Hk').
      split; [exact Hnd'|]. split; [exact Hz'|].
      intros n. rewrite Hk', elem_of_cons. split; [intros [?|[? ?]]; auto|].
      intros [?|[Hn [ ->|?]]]; auto. congruence.
Qed.

(** X11. The v2 tool never lists a column without a name: rows whose first
    field is missing, empty, [None] or zero are skipped, each key of the
    dictionary occurs once, and the keys are exactly the names of the
    rows that count as true. *)
Theorem api_columns_are_named (rows : list row) (columns : dict) :
  V2.api_columns rows = Return columns ->
  NoDup (dict_keys columns) /\
  (Text "" ∉ dict_keys columns) /\
  (forall n, n ∈ dict_keys columns <->
     cell_truthy n = true /\ n ∈ map (fun r => nth 0 r (Text "")) rows).
Proof.
  intros Hb.
  destruct (api_columns_from_keys rows [] columns Hb NoDup_nil_2)
    as (Hnd & Hz & Hk).
  { intros n Hn. inversion Hn. }
  split; [exact Hnd|]. split.
  - intros Hin. apply Hz in Hin. discriminate Hin.
  - intros n. rewrite (Hk n). simpl. rewrite elem_of_nil. tauto.
Qed.

(** X12. On rows that have a name, and either a comment or a name that no
    business table knows, the v2 tool and the reader build the same
    dictionary, and raise alike when a type is not text: the two agents
    differ only in their business texts and in the rows without a
    name. *)
Theorem api_and_reader_agree (rows : list row) :
  Forall (fun r => cell_truthy (nth 0 r (Text "")) = true /\
                   (cell_truthy (nth 2 r (Text "")) = true \/
                    business_text _get_column_descriptions (nth 0 r (Text "")) = None))
         rows ->
  V2.api_columns rows = build_columns (map column_of_row rows).
Proof.
  unfold V2.api_columns, build_columns. generalize (@nil (cell * cell)).
  induction rows as [|r rows IH]; intros d Hall; [reflexivity|].
  apply Forall_cons in Hall as [[Hname Hrow] Hall].
  cbn [map V2.api_columns_from build_columns_from].
  rewrite api_column_step, name_of_column, Hname.
  assert (Hcol : column_of_row r
                 = (nth 0 r (Text ""), nth 1 r (Text ""), nth 2 r (Text ""))).
  { destruct r as [|a [|b [|c r]]]; reflexivity. }
  assert (Hsame : api_describe (column_of_row r) = describe_column (column_of_row r)).
  { rewrite Hcol. unfold api_describe, describe_column.
    destruct (cell_truthy (nth 2 r (Text ""))) eqn:Hc; [reflexivity|].
    destruct Hrow as [Hrow|Hrow]; [congruence|].
    rewrite Hrow. apply business_tables_same_keys in Hrow. rewrite Hrow.
    reflexivity. }
  rewrite Hsame. destruct (describe_column (column_of_row r)); [|reflexivity].
  rewrite Hcol at 1. apply IH, Hall.
Qed.

(** ** The schema tool of the v2 agent against an arbitrary driver *)
Section Schema_tool_properties.

Context {W : Type} `{ProtonDriver W}.
Variable PROTON_AVAILABLE : bool.
Variables default_user default_password default_database : string.

#[local] Arguments ReAct.api_query : simpl never.

Ltac run_tool :=
  unfold ReAct.get_table_schema_from_api, ReAct.try_except, ReAct.bind,
    ReAct.ret, ReAct.pure, ReAct.new_client, ReAct.execute_on in *.

Ltac tool_answer :=
  match goal with
  | |- context [Client ?a ?w0] =>
      let E := fresh "HClient" in destruct (Client a w0) as [[?c|?e] ?w] eqn:E
  | |- context [execute ?c0 ?q ?w0] =>
      let E := fresh "Hexecute" in destruct (execute c0 q w0) as [[?rows|?e] ?w] eqn:E
  | |- context [V2.api_columns ?r] =>
      destruct (V2.api_columns r) as [[|? ?]|?e] eqn:?
  end; simpl.

(** X13. [get_table_schema_from_api] never raises and tells its four
    outcomes apart by the source: success is reported exactly for
    ["timeplus_api"], and then the columns are present, not empty and
    counted; the three failures carry no columns, and a connection error
    carries the text of the exception. *)
Theorem api_tool_classifies (config : ReAct.TimeplusConfig) (tbl : string)
    (s : ReAct.session) :
  exists r s',
    ReAct.get_table_schema_from_api PROTON_AVAILABLE default_user default_password
      default_database config tbl s = (Return r, s') /\
    ReAct.api_table_name r = tbl /\
    (ReAct.api_success r = true <-> ReAct.api_source r = "timeplus_api") /\
    ((PROTON_AVAILABLE = false /\ ReAct.api_source r = "driver_unavailable" /\
      ReAct.api_column_dict r = None /\ s' = s)
     \/ (PROTON_AVAILABLE = true /\ ReAct.api_source r = "timeplus_api" /\
         exists columns,
           ReAct.api_column_dict r = Some columns /\ columns <> [] /\
           ReAct.api_column_count r = Some (length columns) /\
           ReAct.api_connection r
           = Some (ReAct.host_port (ReAct.host config) (ReAct.port config)))
     \/ (PROTON_AVAILABLE = true /\ ReAct.api_source r = "no_data" /\
         ReAct.api_column_dict r = None)
     \/ (PROTON_AVAILABLE = true /\ ReAct.api_source r = "connection_error" /\
         ReAct.api_column_dict r = None /\
         exists e, ReAct.api_error r = Some (exn_msg e) /\
                   ReAct.api_connection_attempted r
                   = Some (ReAct.host_port (ReAct.host config) (ReAct.port config)))).
Proof.
  run_tool. destruct PROTON_AVAILABLE; simpl.
  2: { do 2 eexists. split; [reflexivity|]. simpl. split; [reflexivity|].
       split; [split; discriminate|]. left. repeat split. }
  repeat tool_answer; do 2 eexists; (split; [reflexivity|]); simpl;
    (split; [reflexivity|]); (split; [split; first [reflexivity|discriminate]|]);
    right.
  - right. left. repeat split.
  - left. split; [reflexivity|]. split; [reflexivity|].
    eexists. split; [reflexivity|]. repeat split. discriminate.
  - right. right. repeat split. eexists. split; reflexivity.
  - right. right. repeat split. eexists. split; reflexivity.
  - right. right. repeat split. eexists. split; reflexivity.
Qed.

(** X14. The schema tool makes one attempt: it constructs at most one
    client with the configured host and port, sends no probe and no
    DESCRIBE, and sends the metadata query at most once, on that client. *)
Theorem api_tool_one_query (config : ReAct.TimeplusConfig) (tbl : string)
    (s : ReAct.session) :
  exists r s' evs,
    ReAct.get_table_schema_from_api PROTON_AVAILABLE default_user default_password
      default_database config tbl s = (r, s') /\
    ReAct.seen s' = ReAct.seen s ++ evs /\
    queries evs `prefix_of` [ReAct.api_query (ReAct.database config) tbl] /\
    (length (constructions evs) <= 1)%nat /\
    (forall c, c ∈ queried_clients evs -> constructions evs = [Return c]) /\
    (forall a x, EvClient a x ∈ evs ->
       arg_host a = ReAct.host config /\ arg_port a = ReAct.port config).
Proof.
  run_tool. destruct PROTON_AVAILABLE; simpl.
  2: { exists (Return
         (ReAct.Build_api_schema false "driver_unavailable" tbl
            (Some "proton-driver not installed")
            (Some "pip install proton-driver --extra-index-url https://d.timeplus.com/simple/")
            None None None None None "Use get_static_schema() as fallback")), s, [].
       rewrite app_nil_r. split; [reflexivity|]. split; [reflexivity|].
       split; [eexists; reflexivity|]. split; [simpl; lia|].
       split; intros; simpl in *; match goal with H : _ ∈ [] |- _ => inversion H end. }
  repeat tool_answer;
    do 3 eexists; (split; [reflexivity|]);
    (split; [simpl; rewrite <- ?app_assoc; simpl; reflexivity|]);
    (split; [eexists; reflexivity|]); (split; [simpl; lia|]);
    (split; [simpl; intros c' Hc';
             repeat (apply elem_of_cons in Hc' as [ ->|Hc']; [reflexivity|]);
             inversion Hc'|]);
    intros a x Hin;
    repeat (apply elem_of_cons in Hin as [Hin|Hin];
            [first [injection Hin as -> _; split; reflexivity|discriminate Hin]|]);
    inversion Hin.
Qed.

End Schema_tool_properties.

(** ** The validation tool against an arbitrary analyzer *)
Section Validation_properties.

Context {N A : Type} `{ReAct.AnalyzerService N A}.

(** X15. [validate_sql_query] never raises: it returns a dictionary that
    echoes the statement and names the analyzer as host:port, where an
    absent or empty host is the configured one and an absent or zero port
    is 3218; it reports success with the analysis, or failure with the
    text of the exception. *)
Theorem validation_never_raises (config : ReAct.TimeplusConfig) (sql : string)
    (host' : option string) (port' : option Z) (username' password' : option string)
    (n : N) :
  exists r n',
    ReAct.validate_sql_query config sql host' port' username' password' n
    = (Return r, n') /\
    ReAct.val_sql r = sql /\
    ReAct.val_analyzer_host r
    = ReAct.host_port (ReAct.str_or host' (ReAct.host config)) (ReAct.int_or port' 3218) /\
    ((ReAct.val_success r = true /\ is_Some (ReAct.val_analysis r) /\
      ReAct.val_error r = None)
     \/ (ReAct.val_success r = false /\ ReAct.val_analysis r = None /\
         exists e, ReAct.val_error r = Some (exn_msg e))).
Proof.
  unfold ReAct.validate_sql_query, ReAct.try_except, ReAct.bind, ReAct.ret.
  destruct (ReAct.AnalyzerClient _ _ _ _ n) as [[c|e] n1]; simpl.
  - destruct (ReAct.analyze_sql c sql n1) as [[a|e] n2]; simpl;
      do 2 eexists; (split; [reflexivity|]); simpl; repeat split; eauto.
  - do 2 eexists. split; [reflexivity|]. simpl. repeat split; eauto.
Qed.

(** X16. Called with the statement alone, the validation tool signs in
    with the user and password of the configuration at the configured
    host and port 3218, and hands back what the analyzer returned. *)
Theorem validation_uses_configuration (config : ReAct.TimeplusConfig) (sql : string)
    (n n1 n2 : N) (c : handle) (a : A) :
  ReAct.AnalyzerClient (ReAct.user config) (ReAct.password config)
    (ReAct.host config) 3218 n = (Return c, n1) ->
  ReAct.analyze_sql c sql n1 = (Return a, n2) ->
  exists r,
    ReAct.validate_sql_query config sql None None None None n = (Return r, n2) /\
    ReAct.val_success r = true /\
    ReAct.val_analysis r = Some a /\
    ReAct.val_analyzer_host r = ReAct.host config +:+ ":3218".
Proof.
  intros HC HA.
  unfold ReAct.validate_sql_query, ReAct.try_except, ReAct.bind, ReAct.ret.
  simpl. rewrite HC. simpl. rewrite HA. simpl.
  eexists. split; [reflexivity|]. repeat split.
Qed.

End Validation_properties.

(** ** The configuration manager *)
Section Configuration_properties.

Variable float : Type.
Variable py_int : string -> outcome Z.
Variable py_float : string -> outcome float.

Ltac run_config :=
  unfold Config.__init__, Config._load_model_config, Config._load_timeplus_config,
    Config.save_config, Config.path_exists, Config.load, Config.dump,
    Config.print, Config.lift, ReAct.try_except, ReAct.bind, ReAct.ret in *.

(** X17. What [save_config] has written, a new manager on the same file
    reads back unchanged, field by field, whatever the environment says:
    the keys written are the keys read. *)
Theorem saved_configuration_is_read_back (m : Config.AgentConfigManager float)
    (st st' : Config.os float) :
  Config.save_config m st = (Return tt, st') ->
  forall (point_one : float) (environ : gmap string string),
    Config.__init__ py_int py_float point_one (Config.config_file m) environ st'
    = (Return m, st').
Proof.
  intros Hsave point_one environ. run_config.
  destruct (bool_decide (Config.config_file m ∈ Config.read_only st)); simpl in Hsave;
    [discriminate|].
  injection Hsave as <-. simpl.
  repeat (rewrite lookup_insert_eq; simpl).
  destruct m as [f [? ? ? ? ? ?] [? ? ? ? ? ?]]. reflexivity.
Qed.

(** X18. A file that is a JSON dictionary with a "timeplus" dictionary
    (or none) decides the Timeplus configuration alone: the environment
    is not read, nothing is raised, and a key the file lacks takes the
    built-in default, not the value of the environment. *)
Theorem file_beats_environment (path : string) (st : Config.os float)
    (section : list (string * Config.json float)) :
  Config.usable st path "timeplus" section ->
  forall environ : gmap string string,
    Config._load_timeplus_config py_int path environ st
    = (Return
         {| Config.host := default (Config.JStr "localhost") (Config.item section "host");
            Config.port := default (Config.JInt 8463) (Config.item section "port");
            Config.user := default (Config.JStr "default") (Config.item section "user");
            Config.password := default (Config.JStr "") (Config.item section "password");
            Config.database := default (Config.JStr "default") (Config.item section "database");
            Config.table := default (Config.JStr "t_metrics") (Config.item section "table") |},
       st).
Proof.
  intros (doc & Hfile & Hsection) environ. run_config.
  repeat (rewrite Hfile; simpl). rewrite Hsection. reflexivity.
Qed.

(** X19. In every other case (no file, a file that cannot be loaded, a
    document that is not a dictionary, a "timeplus" entry that is not
    one) the loader falls back to the environment without a trace: the
    result, or the error of [int], is that of the environment alone. *)
Theorem unusable_file_falls_back (path : string) (st : Config.os float)
    (environ : gmap string string) :
  (forall section, ~ Config.usable st path "timeplus" section) ->
  Config._load_timeplus_config py_int path environ st
  = (Config.timeplus_config_from_environment py_int environ, st).
Proof.
  intros Hno. run_config.
  destruct (Config.files st !! path) as [[v|e]|] eqn:Hfile; simpl.
  - rewrite ?Hfile. simpl.
    destruct v as [| | | | |l|doc]; simpl; try reflexivity.
    destruct (Config.item doc "timeplus") as [v|] eqn:Hitem; simpl.
    + destruct v as [| | | | |l|d]; simpl; try reflexivity.
      exfalso. apply (Hno d). exists doc. rewrite Hitem. auto.
    + exfalso. apply (Hno []). exists doc. rewrite Hitem. auto.
  - rewrite ?Hfile. reflexivity.
  - reflexivity.
Qed.

(** X20. Read from the environment, the Timeplus configuration has its
    declared field types, and its host, port, user, password and database
    are those the schema reader takes from the same environment; both
    fail together, on a port text that [int] rejects. *)
Theorem environment_is_read_alike (environ : gmap string string) :
  match Config.timeplus_config_from_environment (float := float) py_int environ,
        __init__ py_int environ None None None None None with
  | Return c, Return r =>
      exists t,
        Config.declared c = Some t /\
        ReAct.host t = host r /\ ReAct.port t = port r /\
        ReAct.user t = user r /\ ReAct.password t = password r /\
        ReAct.database t = database r /\
        ReAct.table t = getenv environ "TIMEPLUS_TABLE" "t_metrics"
  | Raise e, Raise e' => e = e'
  | _, _ => False
  end.
Proof.
  unfold Config.timeplus_config_from_environment, __init__.
  destruct (py_int _) as [p|e]; [|reflexivity].
  eexists. split; [reflexivity|]. repeat split.
Qed.

End Configuration_properties.

(** ** Constructing the model *)
Section Model_properties.

Variable float : Type.
Variable float_truthy : float -> bool.
Variable str_lower : string -> string.
Context {L Model : Type} `{Config.ModelLibrary float L Model}.

(** X21. [create_model] chooses the class by the lower-cased provider and
    calls its constructor once, with [id] and then, when they are set,
    [api_key], [base_url], [temperature] and [max_tokens]; Groq is never
    given [base_url].  Any other provider raises [ValueError], and a
    provider that is not text raises [AttributeError], in both cases
    without a constructor being called. *)
Theorem create_model_dispatch (m : Config.AgentConfigManager float) (l : L) :
  let config := Config.model_config m in
  match Config.provider config with
  | Config.JStr p =>
      let name := str_lower p in
      if String.eqb name "anthropic" then
        Config.create_model float_truthy str_lower m l
        = Config.new_model Config.Claude
            (Config.keyword_arguments float_truthy true config) l
      else if String.eqb name "openai" then
        Config.create_model float_truthy str_lower m l
        = Config.new_model Config.OpenAI
            (Config.keyword_arguments float_truthy true config) l
      else if String.eqb name "groq" then
        Config.create_model float_truthy str_lower m l
        = Config.new_model Config.Groq
            (Config.keyword_arguments float_truthy false config) l
      else
        exists e, exn_class e = "ValueError" /\
          Config.create_model float_truthy str_lower m l = (Raise e, l)
  | _ =>
      exists e, exn_class e = "AttributeError" /\
        Config.create_model float_truthy str_lower m l = (Raise e, l)
  end.
Proof.
  intros config. unfold Config.create_model, Config.keyword_arguments,
    Config.lift, ReAct.bind, ReAct.raise. fold config.
  destruct (Config.provider config) as [| | | |p| |]; simpl;
    try (eexists; split; [|reflexivity]; reflexivity).
  destruct (String.eqb (str_lower p) "anthropic");
    [|destruct (String.eqb (str_lower p) "openai");
      [|destruct (String.eqb (str_lower p) "groq")]].
  4: { eexists. split; [|reflexivity]. reflexivity. }
  all: f_equal;
    destruct (Config.is_true float_truthy (Config.api_key config));
    destruct (Config.is_true float_truthy (Config.api_url config));
    destruct (Config.temperature config);
    destruct (Config.is_true float_truthy (Config.max_tokens config));
    reflexivity.
Qed.

End Model_properties.

(** ** What every result carries *)
Section Result_properties.

Context {W : Type} `{ProtonDriver W}.
Variable PROTON_AVAILABLE : bool.

(** X22. Whatever the driver does, a result names the table asked for
    and carries the description and the three constraints that
    [build_complete_schema_info] and the first agent give; the connection
    information is there exactly for a live result, and is then the host,
    port and database of the reader; and a fallback result has the
    columns of the first agent's schema. *)
Theorem result_metadata (tbl : string) (s s' : mstate) (d : schema_dict) :
  get_schema_dict PROTON_AVAILABLE tbl s = (Return d, s') ->
  table_name d = ReAct.info_table_name (ReAct.build_complete_schema_info tbl) /\
  description d = ReAct.info_description (ReAct.build_complete_schema_info tbl) /\
  constraints d = ReAct.info_constraints (ReAct.build_complete_schema_info tbl) /\
  description d = V1.description V1.get_table_schema /\
  constraints d = V1.constraints V1.get_table_schema /\
  ((source d = "timeplus_api" /\
    conn_info d = Some {| ci_host := host (self s); ci_port := port (self s);
                          ci_database := database (self s) |})
   \/ (source d = "fallback" /\ conn_info d = None /\
       columns d = V1.columns V1.get_table_schema)).
Proof.
  intros Hrun.
  destruct (resolve_replays PROTON_AVAILABLE tbl s)
    as (out & s1 & evs & Hrun' & _ & Hout & _).
  rewrite Hrun in Hrun'. injection Hrun' as <- _.
  assert (Hcases : d = _get_fallback_schema tbl
                   \/ exists columns, d = live_schema (self s) tbl columns).
  { destruct (resolved_from_columns (self s) tbl (responses evs))
      as [Hf|(cols & Hc & _)]; [left; congruence|].
    rewrite Hc in Hout. unfold from_columns in Hout.
    destruct cols as [|c l]; [left; congruence|].
    destruct (build_columns (c :: l)) as [columns|e]; [|discriminate].
    right. exists columns. congruence. }
  destruct Hcases as [->|(columns & ->)]; repeat split; auto.
Qed.

End Result_properties.

(** ** The model configuration *)
Section Model_configuration_properties.

Variable float : Type.
Variable py_int : string -> outcome Z.
Variable py_float : string -> outcome float.

(** X23. Unlike the Timeplus loader, the model loader reports a file
    that is there but of no use: it prints one line and then reads the
    environment; when there is no file it reads the environment and
    prints nothing.  In both cases the result, or the error of [float]
    or [int], is that of the environment alone. *)
Theorem model_loader_reports_bad_file (point_one : float) (path : string)
    (st : Config.os float) (environ : gmap string string) :
  (forall section, ~ Config.usable st path "model" section) ->
  exists printed,
    Config._load_model_config py_int py_float point_one path environ st
    = (Config.model_config_from_environment py_int py_float environ,
       {| Config.files := Config.files st; Config.read_only := Config.read_only st;
          Config.stdout := Config.stdout st ++ printed |}) /\
    (length printed = if bool_decide (is_Some (Config.files st !! path)) then 1 else 0)%nat.
Proof.
  intros Hno.
  unfold Config._load_model_config, Config.path_exists, Config.load,
    Config.print, Config.lift, ReAct.try_except, ReAct.bind, ReAct.ret.
  destruct (Config.files st !! path) as [[v|e]|] eqn:Hfile; simpl.
  - rewrite ?Hfile. simpl.
    destruct v as [| | | | |l|doc]; simpl;
      try (eexists [_]; split; reflexivity).
    destruct (Config.item doc "model") as [v|] eqn:Hitem; simpl.
    + destruct v as [| | | | |l|d]; simpl;
        try (eexists [_]; split; reflexivity).
      exfalso. apply (Hno d). exists doc. rewrite Hitem. auto.
    + exfalso. apply (Hno []). exists doc. rewrite Hitem. auto.
  - rewrite ?Hfile. simpl. eexists [_]. split; reflexivity.
  - exists []. rewrite app_nil_r. destruct st. split; reflexivity.
Qed.

End Model_configuration_properties.

(** ** The static schema of the v2 agent *)

(** X24. [get_static_schema] succeeds for ["t_metrics"] and for no other
    name.  For t_metrics it gives seventeen columns, those of the reader's
    fallback; for any other name it gives no columns, names the table in
    its error and lists ["t_metrics"] as the only supported table. *)
Theorem static_schema_knows_one_table (tbl : string) :
  (V2.success (V2.get_static_schema tbl) = true <-> tbl = "t_metrics") /\
  match V2.static_columns (V2.get_static_schema tbl) with
  | Some columns =>
      tbl = "t_metrics" /\ columns = fallback_columns /\
      V2.column_count (V2.get_static_schema tbl) = Some 17%nat /\
      V2.static_table_name (V2.get_static_schema tbl) = Some tbl
  | None =>
      tbl <> "t_metrics" /\
      V2.static_source (V2.get_static_schema tbl) = "unsupported_table" /\
      V2.error (V2.get_static_schema tbl)
      = Some ("No static schema available for " +:+ tbl) /\
      V2.supported_tables (V2.get_static_schema tbl) = Some ["t_metrics"]
  end.
Proof.
  unfold V2.get_static_schema.
  destruct (String.eqb_spec tbl "t_metrics") as [->|Hne]; simpl.
  - split; [split; reflexivity|]. repeat split.
  - split; [split; [discriminate|contradiction]|]. repeat split. exact Hne.
Qed.

(** ** Concrete runs of the further properties *)

Lemma distinct_names (l : list cell) :
  bool_decide (NoDup l) = true -> NoDup l.
Proof. apply bool_decide_eq_true_1. Qed.

(** Two rows of distinct names, one described by the business table. *)
Lemma live_columns_follow_rows_witness :
  let columns_info :=
    [(Text "metric", Text "string", Text ""); (Text "shard", Text "uint8", Text "")] in
  NoDup (map name_of columns_info) /\
  build_columns columns_info
  = Return (texts [("metric", "string - Metric name identifier"); ("shard", "uint8")]).
Proof.
  intros columns_info.
  assert (Hnd : NoDup (map name_of columns_info))
    by (apply distinct_names; vm_compute; reflexivity).
  split; [exact Hnd|].
  rewrite (live_columns_follow_rows columns_info Hnd). reflexivity.
Defined.

(** Three rows, two of them of the same name: two entries, the later row
    decides the description and the earlier one the position. *)
Lemma live_columns_keys_witness :
  let columns_info :=
    [(Text "metric", Text "string", Text ""); (Text "shard", Text "uint8", Text "");
     (Text "metric", Text "string", Text "again")] in
  let columns := texts [("metric", "string - again"); ("shard", "uint8")] in
  build_columns columns_info = Return columns /\
  NoDup (dict_keys columns) /\
  (length columns <= length columns_info)%nat.
Proof.
  intros columns_info columns.
  assert (Hb : build_columns columns_info = Return columns) by reflexivity.
  destruct (live_columns_keys columns_info columns Hb) as (Hnd & _ & Hlen).
  split; [exact Hb|]. split; [exact Hnd|exact Hlen].
Defined.

(** The metadata view raises, DESCRIBE lists one column. *)
Lemma describe_after_failed_view_witness :
  let e := Exn "ServerException" "Unknown table system.columns" in
  let w0 := view_fails "t_metrics" e [cells ["metric"; "string"]] in
  exists d s',
    get_schema_dict true "t_metrics" (start w0) = (Return d, s') /\
    times_run (describe_query "default" "t_metrics") (trace s') = 1%nat /\
    (LogColumns, e) ∈ logged (trace s') /\
    d = live_schema default_reader "t_metrics"
          (texts [("metric", "string - Metric name identifier")]).
Proof.
  intros e w0.
  pose (w := {| answers := answers w0; next_handle := 1%nat |}).
  destruct (describe_after_failed_view (H := scripted_driver) true "t_metrics"
              (start w0) 0%nat w [[Int 1]] w e w
              eq_refl ltac:(reflexivity) ltac:(reflexivity) ltac:(reflexivity))
    as (out & s' & evs & Hrun & Htrace & Hcount & Hlog & Hout & _).
  assert (Hd : out = Return (live_schema default_reader "t_metrics"
                               (texts [("metric", "string - Metric name identifier")])))
    by (rewrite Hout; reflexivity).
  rewrite Hd in Hrun.
  eexists _, s'. simpl in Htrace. rewrite Htrace.
  split; [exact Hrun|]. split; [exact Hcount|]. split; [exact Hlog|reflexivity].
Defined.

(** A reader that has never connected. *)
Lemma helpers_without_client_witness :
  client (self (start unreachable)) = None /\
  get_table_columns "t_metrics" (start unreachable) = (Return [], start unreachable) /\
  exists s', _describe_table "t_metrics" (start unreachable) = (Return [], s') /\
             length (logged (trace s')) = 1%nat /\ queries (trace s') = [].
Proof.
  split; [reflexivity|].
  destruct (helpers_without_client (H := scripted_driver) "t_metrics"
              (start unreachable) eq_refl) as (Hcols & e & Hclass & Hdesc).
  split; [exact Hcols|]. eexists. split; [exact Hdesc|]. split; reflexivity.
Defined.


(** A later call on a process whose reader exists, under an environment
    that would break the constructor. *)
Lemma later_call_ignores_environment_witness :
  let p := running (healthy "t_metrics" [cells ["metric"; "string"; ""]]) in
  let environ : gmap string string := <["TIMEPLUS_PORT" := "not a number"]> ∅ in
  shares 0%nat 1%nat default_reader p /\
  exists d p',
    get_table_schema true int_of_numeral environ "t_metrics" p = (Return d, p') /\
    get_table_schema true int_of_numeral ∅ "t_metrics" p = (Return d, p') /\
    shares 0%nat 1%nat default_reader p'.
Proof.
  intros p environ.
  assert (Hs : shares 0%nat 1%nat default_reader p).
  { split; [reflexivity|]. split; [reflexivity|]. exists default_reader.
    split; [reflexivity|]. repeat split. }
  split; [exact Hs|].
  destruct (later_call_ignores_environment true int_of_numeral environ "t_metrics"
              0%nat 1%nat default_reader p Hs)
    as (out & p' & Hrun & Hs' & Hany & Hret & _).
  assert (Htext : text_types (added (length (history p)) (history p')) = true).
  { assert (Hp' : p' = (get_table_schema true int_of_numeral environ "t_metrics" p).2)
      by (rewrite Hrun; reflexivity).
    rewrite Hp'. vm_compute. reflexivity. }
  destruct (Hret Htext) as (d & ->).
  exists d, p'. split; [exact Hrun|]. split; [apply Hany|exact Hs'].
Defined.

(** A row without a name, a row named zero and two rows of one name: one
    key. *)
Lemma api_columns_are_named_witness :
  let rows := [[Text ""; Text "string"]; [Int 0; Text "uint8"];
               cells ["metric"; "string"]; cells ["metric"; "string"; "again"]] in
  let columns := texts [("metric", "string - again")] in
  V2.api_columns rows = Return columns /\
  NoDup (dict_keys columns) /\
  (Text "" ∉ dict_keys columns).
Proof.
  intros rows columns.
  assert (Hb : V2.api_columns rows = Return columns) by reflexivity.
  destruct (api_columns_are_named rows columns Hb) as (Hnd & Hz & _).
  split; [exact Hb|]. split; [exact Hnd|exact Hz].
Defined.

(** A commented row and a row of a name nobody describes. *)
Lemma api_and_reader_agree_witness :
  let rows := [cells ["metric"; "string"; "the name of the metric"];
               cells ["shard"; "uint8"]] in
  V2.api_columns rows = build_columns (map column_of_row rows) /\
  V2.api_columns rows
  = Return (texts [("metric", "string - the name of the metric"); ("shard", "uint8")]).
Proof.
  intros rows. split; [|reflexivity].
  apply (api_and_reader_agree rows).
  apply Forall_cons_2; [split; [reflexivity|left; reflexivity]|].
  apply Forall_cons_2; [split; [reflexivity|right; vm_compute; reflexivity]|].
  apply Forall_nil_2.
Defined.

(** A live result of the default reader. *)
Lemma result_metadata_witness :
  let s := start (healthy "t_metrics" [cells ["metric"; "string"; ""]]) in
  exists d s',
    get_schema_dict true "t_metrics" s = (Return d, s') /\
    source d = "timeplus_api" /\
    table_name d = "t_metrics" /\
    constraints d = V1.constraints V1.get_table_schema /\
    conn_info d = Some {| ci_host := "localhost"; ci_port := 8463;
                          ci_database := "default" |}.
Proof.
  intros s.
  destruct (get_schema_dict true "t_metrics" s) as [[d|e] s'] eqn:Hrun;
    [|vm_compute in Hrun; discriminate Hrun].
  destruct (result_metadata (H := scripted_driver) true "t_metrics" s s' d Hrun)
    as (Hname & _ & _ & _ & Hcons & Hcases).
  assert (Hsrc : source d = "timeplus_api").
  { vm_compute in Hrun. injection Hrun as <- _. reflexivity. }
  exists d, s'. split; [reflexivity|]. split; [exact Hsrc|].
  split; [exact Hname|]. split; [exact Hcons|].
  destruct Hcases as [[_ Hinfo]|[Hfb _]]; [exact Hinfo|].
  rewrite Hsrc in Hfb. discriminate Hfb.
Defined.

(** The statement alone: the sign-in recorded is the configured one. *)
Lemma validation_uses_configuration_witness :
  exists r,
    ReAct.validate_sql_query default_config "SELECT 1" None None None None []
    = (Return r, ["default@localhost:3218"]) /\
    ReAct.val_success r = true /\
    ReAct.val_analysis r = Some "valid: SELECT 1" /\
    ReAct.val_analyzer_host r = "localhost:3218".
Proof.
  apply (validation_uses_configuration (H := recording_analyzer) default_config
           "SELECT 1" [] ["default@localhost:3218"] ["default@localhost:3218"]
           0%nat "valid: SELECT 1"); reflexivity.
Defined.

(** Saving the sample manager and reading it back under an environment
    that says otherwise. *)
Lemma saved_configuration_is_read_back_witness :
  let environ : gmap string string := <["TIMEPLUS_HOST" := "elsewhere"]> ∅ in
  exists st',
    Config.save_config sample_manager (fresh_os ∅) = (Return tt, st') /\
    Config.__init__ int_of_numeral numeral_float "0.1" "agent_config.json" environ st'
    = (Return sample_manager, st').
Proof.
  intros environ.
  destruct (Config.save_config sample_manager (fresh_os ∅)) as [[[]|e] st'] eqn:Hsave;
    [|vm_compute in Hsave; discriminate].
  exists st'. split; [reflexivity|].
  apply (saved_configuration_is_read_back string int_of_numeral numeral_float
           sample_manager (fresh_os ∅) st' Hsave "0.1" environ).
Defined.

(** A file that sets the host only, against an environment that sets the
    port: the port is the built-in one. *)
Lemma file_beats_environment_witness :
  let doc := Config.JDict [("timeplus", Config.JDict [("host", Config.JStr "metrics-db")])] in
  let st := fresh_os (<["agent_config.json" := Config.Document doc]> ∅) in
  let environ : gmap string string := <["TIMEPLUS_PORT" := "9999"]> ∅ in
  Config.usable st "agent_config.json" "timeplus" [("host", Config.JStr "metrics-db")] /\
  exists c,
    Config._load_timeplus_config int_of_numeral "agent_config.json" environ st
    = (Return c, st) /\
    Config.host c = Config.JStr "metrics-db" /\ Config.port c = Config.JInt 8463.
Proof.
  intros doc st environ.
  assert (Hu : Config.usable st "agent_config.json" "timeplus"
                 [("host", Config.JStr "metrics-db")]).
  { eexists. split; [reflexivity|]. reflexivity. }
  split; [exact Hu|].
  eexists. split; [apply (file_beats_environment string int_of_numeral _ _ _ Hu environ)|].
  split; reflexivity.
Defined.

(** No file at all: the environment decides. *)
Lemma unusable_file_falls_back_witness :
  let st := fresh_os ∅ in
  let environ : gmap string string := <["TIMEPLUS_PORT" := "9999"]> ∅ in
  (forall section, ~ Config.usable st "agent_config.json" "timeplus" section) /\
  exists c,
    Config._load_timeplus_config int_of_numeral "agent_config.json" environ st
    = (Return c, st) /\
    Config.port c = Config.JInt 9999.
Proof.
  intros st environ.
  assert (Hno : forall section,
            ~ Config.usable st "agent_config.json" "timeplus" section).
  { intros section (doc & Hfile & _). discriminate Hfile. }
  split; [exact Hno|].
  rewrite (unusable_file_falls_back string int_of_numeral _ st environ Hno).
  eexists. split; [vm_compute; reflexivity|]. reflexivity.
Defined.

(** A file that cannot be loaded: one line is printed, the environment
    decides. *)
Lemma model_loader_reports_bad_file_witness :
  let e := Exn "JSONDecodeError" "Expecting value: line 1 column 1 (char 0)" in
  let st := fresh_os (<["agent_config.json" := Config.Unloadable e]> ∅) in
  (forall section, ~ Config.usable st "agent_config.json" "model" section) /\
  exists printed,
    Config._load_model_config int_of_numeral numeral_float "0.1"
      "agent_config.json" ∅ st
    = (Config.model_config_from_environment int_of_numeral numeral_float ∅,
       {| Config.files := Config.files st; Config.read_only := Config.read_only st;
          Config.stdout := Config.stdout st ++ printed |}) /\
    length printed = 1%nat.
Proof.
  intros e st.
  assert (Hno : forall section,
            ~ Config.usable st "agent_config.json" "model" section).
  { intros section (doc & Hfile & _). discriminate Hfile. }
  split; [exact Hno|].
  destruct (model_loader_reports_bad_file string int_of_numeral numeral_float "0.1"
              "agent_config.json" st ∅ Hno) as (printed & Hrun & Hlen).
  exists printed. split; [exact Hrun|]. exact Hlen.
Defined.

(** ** Reconfiguring the model *)
Section Reconfiguration_properties.

Variable float : Type.
Variable py_int : string -> outcome Z.
Variable py_float : string -> outcome float.

(** X25. [configure_model] first builds a manager from the default file
    and the environment.  With no configuration file, a temperature text
    in the environment that [float] rejects makes it raise, although the
    temperature is passed as an argument; and when it does not raise, the
    manager has the five given fields, while max_tokens and the whole
    Timeplus configuration are those of the environment. *)
Theorem configure_model_reads_environment (point_one : float)
    (environ : gmap string string) (provider' model_id' : string)
    (api_key' api_url' : option string) (temperature' : float) (st : Config.os float) :
  Config.files st !! "agent_config.json" = None ->
  match Config.model_config_from_environment py_int py_float environ,
        Config.timeplus_config_from_environment py_int environ with
  | Return loaded, Return timeplus =>
      exists m,
        Config.temp_config py_int py_float point_one environ provider' model_id'
          api_key' api_url' temperature' st = (Return m, st) /\
        Config.provider (Config.model_config m) = Config.JStr provider' /\
        Config.model_id (Config.model_config m) = Config.JStr model_id' /\
        Config.temperature (Config.model_config m) = Config.JFloat temperature' /\
        Config.max_tokens (Config.model_config m) = Config.max_tokens loaded /\
        Config.timeplus_config m = timeplus
  | Raise e, _ | Return _, Raise e =>
      Config.temp_config py_int py_float point_one environ provider' model_id'
        api_key' api_url' temperature' st = (Raise e, st)
  end.
Proof.
  intros Hfile.
  unfold Config.temp_config, Config.__init__, Config._load_model_config,
    Config._load_timeplus_config, Config.path_exists, Config.lift,
    ReAct.bind, ReAct.ret.
  rewrite Hfile. simpl.
  destruct (Config.model_config_from_environment _ _ _) as [loaded|e]; simpl;
    [|reflexivity].
  rewrite Hfile. simpl.
  destruct (Config.timeplus_config_from_environment _ _) as [timeplus|e]; simpl;
    [|reflexivity].
  eexists. split; [reflexivity|]. repeat split.
Qed.

End Reconfiguration_properties.

(** No file, and a temperature text that is no number: the call raises
    what [float] raised. *)
Lemma configure_model_reads_environment_witness :
  let refuse (s : string) : outcome string :=
    if String.eqb s "warm" then Raise (Exn "ValueError" "could not convert string to float")
    else Return s in
  let environ : gmap string string := <["AGENT_TEMPERATURE" := "warm"]> ∅ in
  Config.files (fresh_os ∅) !! "agent_config.json" = None /\
  Config.temp_config int_of_numeral refuse "0.1" environ "openai" "gpt-4" None None
    "0.1" (fresh_os ∅)
  = (Raise (Exn "ValueError" "could not convert string to float"), fresh_os ∅).
Proof.
  intros refuse environ. split; [reflexivity|].
  pose proof (configure_model_reads_environment string int_of_numeral refuse "0.1"
                environ "openai" "gpt-4" None None "0.1" (fresh_os ∅) eq_refl) as Hrun.
  assert (Hm : Config.model_config_from_environment int_of_numeral refuse environ
               = Raise (Exn "ValueError" "could not convert string to float"))
    by (vm_compute; reflexivity).
  rewrite Hm in Hrun. exact Hrun.
Defined.
